(** * netrunner, package [local]: node provisioning and peer attachment

    A shallow embedding of [local/node.go] (the node runtime handle:
    [AttachPeer], [SendOutboundMessage], [GetFlag]) and of the provisioning
    helpers of the same package ([writeFiles], [getConfigEntry], [getPort],
    [makeNodeDir], [createFileAndWrite], [addNetworkFlags]).

    Conventions.
    - A Go [map[string]T] is a [gomap T]: [None] is the nil map, [Some m] an
      allocated one.  Reading a nil map finds nothing, assigning to it
      panics.
    - An [interface{}] flag value is a [value]: the dynamic types the code
      switches on are constructors of their own, every other dynamic type
      is [VOther] with the name [%T] prints for it.
    - A Go [error] built by [fmt.Errorf] keeps its format string and its
      operands, so that what a message names can be read off.
    - Calls into the operating system are recorded in a trace of [event]s;
      whether a call fails is decided by the environment. *)

From Stdlib Require Import ZArith Floats.SpecFloat.
From stdpp Require Import base gmap strings list fin_maps pretty.

Open Scope string_scope.
Open Scope list_scope.
Open Scope Z_scope.

(** ** Go values, maps and errors *)

Module Go.

(** The dynamic content of an [interface{}]. *)
Inductive value : Type :=
| VNil
| VString (s : string)
| VInt (n : Z)
| VFloat64 (f : spec_float)
| VBool (b : bool)
| VOther (tyname : string).

(** What the verb [%T] prints for a value. *)
Definition fmt_T (v : value) : string :=
  match v with
  | VNil => "<nil>"
  | VString _ => "string"
  | VInt _ => "int"
  | VFloat64 _ => "float64"
  | VBool _ => "bool"
  | VOther tyname => tyname
  end.

(** [ErrExternal] is an error value handed back by a library or by the
    operating system; [Errorf format operands] is
    [fmt.Errorf(format, operands...)]; [Wrapf format operands err] is
    [fmt.Errorf(format, operands..., err)] where [err] is the operand of
    the closing [%w]. *)
Inductive error : Type :=
| ErrExternal (what : string)
| Errorf (format : string) (operands : list value)
| Wrapf (format : string) (operands : list value) (err : error).

Inductive result (A : Type) : Type :=
| Ok (a : A)
| Err (e : error).
Arguments Ok {A} a.
Arguments Err {A} e.

Definition is_Ok {A} (r : result A) : bool :=
  match r with Ok _ => true | Err _ => false end.

(** A statement either completes or panics. *)
Inductive outcome (A : Type) : Type :=
| Done (a : A)
| Panic (msg : string).
Arguments Done {A} a.
Arguments Panic {A} msg.

Definition gomap (V : Type) : Type := option (gmap string V).

(** [v, ok := m[k]] *)
Definition index {V} (m : gomap V) (k : string) : option V :=
  match m with
  | None => None
  | Some g => g !! k
  end.

(** [m[k] = v] *)
Definition assign {V} (m : gomap V) (k : string) (v : V) : outcome (gomap V) :=
  match m with
  | None => Panic "assignment to entry in nil map"
  | Some g => Done (Some (<[k := v]> g))
  end.

(** [uint16(n)] for [n] of type [int]: the low 16 bits. *)
Definition uint16_of_int (n : Z) : Z := Z.land n 65535.

(** The integer part of a finite float64, the fraction discarded. *)
Definition float64_trunc (f : spec_float) : option Z :=
  match f with
  | S754_zero _ => Some 0
  | S754_finite s m e =>
      let magnitude := Z.shiftl (Z.pos m) e in
      Some (if s then - magnitude else magnitude)
  | S754_infinity _ => None
  | S754_nan => None
  end.

Definition fits_uint16 (n : Z) : bool := (0 <=? n) && (n <? 65536).

End Go.

Import Go.

(** ** Flag maps: [addNetworkFlags], [getConfigEntry], [getPort] *)

Section Flags.

(** The order in which a [range] statement yields the entries of a map.
    Go leaves it unspecified: it is some enumeration of the entries. *)
Variable range : forall V : Type, gmap string V -> list (string * V).

Definition range_of {V} (m : gomap V) : list (string * V) :=
  match m with
  | None => []
  | Some g => range V g
  end.

(** The result of converting a float64 that [uint16] cannot represent:
    Go leaves it to the implementation. *)
Variable uint16_unrepresentable : spec_float -> Z.

(** [uint16(f)] for [f] of type [float64]. *)
Definition uint16_of_float64 (f : spec_float) : Z :=
  match float64_trunc f with
  | Some n => if fits_uint16 n then n else uint16_unrepresentable f
  | None => uint16_unrepresentable f
  end.

(** What the package's [getFreePort] helper hands back: the port the
    operating system assigned to an ephemeral bind, or the error of the
    bind. *)
Variable getFreePort : result Z.

(** The body of the loop of [addNetworkFlags], over the entries still to
    be visited. *)
Fixpoint addNetworkFlags_loop (entries : list (string * value))
    (nodeFlags : gomap value) : outcome (gomap value) :=
  match entries with
  | [] => Done nodeFlags
  | (flagName, flagVal) :: rest =>
      match index nodeFlags flagName with
      | Some _ => addNetworkFlags_loop rest nodeFlags
      | None =>
          match assign nodeFlags flagName flagVal with
          | Done nodeFlags' => addNetworkFlags_loop rest nodeFlags'
          | Panic msg => Panic msg
          end
      end
  end.

(** [addNetworkFlags]: the returned map is [nodeFlags] after the call. *)
Definition addNetworkFlags (networkFlags nodeFlags : gomap value)
    : outcome (gomap value) :=
  addNetworkFlags_loop (range_of networkFlags) nodeFlags.

(** [getConfigEntry].  The variable [entry] declared first is a string
    that is never assigned: the [entry] bound by each [if] is a new
    variable that lives in that [if] only, so the operand of [%T] in both
    messages is the outer, empty, string. *)
Definition getConfigEntry (nodeConfigFlags configFile : gomap value)
    (flag defaultVal : string) : result string :=
  let entry := "" in
  match index nodeConfigFlags flag with
  | Some val =>
      match val with
      | VString entry' => Ok entry'
      | _ => Err (Errorf "expected node config flag %q to be string but got %T"
                    [VString flag; VString entry])
      end
  | None =>
      match index configFile flag with
      | Some val =>
          match val with
          | VString entry' => Ok entry'
          | _ => Err (Errorf "expected config file flag %q to be string but got %T"
                        [VString flag; VString entry])
          end
      | None => Ok defaultVal
      end
  end.

(** [getPort] *)
Definition getPort (flags configFile : gomap value) (portKey : string)
    : result Z :=
  match index flags portKey with
  | Some portIntf =>
      match portIntf with
      | VInt gotPort => Ok (uint16_of_int gotPort)
      | VFloat64 gotPort => Ok (uint16_of_float64 gotPort)
      | _ => Err (Errorf "expected flag %q to be int/float64 but got %T"
                    [VString portKey; portIntf])
      end
  | None =>
      match index configFile portKey with
      | Some portIntf =>
          match portIntf with
          | VFloat64 portFromConfigFile => Ok (uint16_of_float64 portFromConfigFile)
          | _ => Err (Errorf "expected flag %q to be float64 but got %T"
                        [VString portKey; portIntf])
          end
      | None =>
          match getFreePort with
          | Ok port => Ok port
          | Err err => Err (Wrapf "couldn't get free port: %w" [] err)
          end
      end
  end.

End Flags.

(** ** The operating system as seen by provisioning *)

Module OS.

(** File modes, written in octal in the source. *)
Definition mode_0o750 : Z := 7 * 64 + 5 * 8 + 0.
Definition mode_0o755 : Z := 7 * 64 + 5 * 8 + 5.

Inductive call : Type :=
| Mkdir (path : string) (perm : Z)
| MkdirAll (path : string) (perm : Z)
| Create (path : string)
| Write (path : string) (contents : list Byte.byte)
| Close (path : string).

(** What provisioning does to the outside, in order: a call with the
    error it came back with, or a warning handed to the logger. *)
Inductive event : Type :=
| Called (c : call) (err : option error)
| LogWarn (msg : string) (fields : list (string * string)).

Definition trace : Type := list event.

(** A computation that issues calls: from the trace so far to a result
    and the trace extended. *)
Definition M (A : Type) : Type := trace -> result A * trace.

Definition ret {A} (a : A) : M A := fun t => (Ok a, t).

Definition bind {A B} (m : M A) (k : A -> M B) : M B :=
  fun t =>
    match m t with
    | (Ok a, t') => k a t'
    | (Err e, t') => (Err e, t')
    end.

Definition lift {A} (r : result A) : M A := fun t => (r, t).

(** [if err := m; err != nil { return nil, wrap(err) }] *)
Definition wrapping {A} (wrap : error -> error) (m : M A) : M A :=
  fun t =>
    match m t with
    | (Ok a, t') => (Ok a, t')
    | (Err e, t') => (Err (wrap e), t')
    end.

Definition warn (msg : string) (fields : list (string * string)) : M unit :=
  fun t => (Ok tt, t ++ [LogWarn msg fields]).

(** The calls of a trace, and the modes directories were asked for. *)
Definition calls (t : trace) : list call :=
  omap (fun ev => match ev with Called c _ => Some c | LogWarn _ _ => None end) t.

Definition succeeded (t : trace) : list call :=
  omap (fun ev => match ev with Called c None => Some c | _ => None end) t.

Definition created (t : trace) : list string :=
  omap (fun c => match c with Create p => Some p | _ => None end) (calls t).

Definition mkdirall_modes (t : trace) : list Z :=
  omap (fun c => match c with MkdirAll _ perm => Some perm | _ => None end) (calls t).

Definition mkdir_modes (t : trace) : list Z :=
  omap (fun c => match c with Mkdir _ perm => Some perm | _ => None end) (calls t).

(** Permission bits of a mode. *)
Definition owner_rwx (perm : Z) : bool := Z.land perm (7 * 64) =? 7 * 64.
Definition group_rwx (perm : Z) : bool := Z.land perm (7 * 8) =? 7 * 8.
Definition group_rx_only (perm : Z) : bool := Z.land perm (7 * 8) =? 5 * 8.
Definition world_none (perm : Z) : bool := Z.land perm 7 =? 0.
Definition world_rx_only (perm : Z) : bool := Z.land perm 7 =? 5.
Definition owner_only (perm : Z) : bool := Z.land perm (7 * 8 + 7) =? 0.

End OS.

Import OS.

Notation "'let*' x ':=' m 'in' k" := (OS.bind m (fun x => k))
  (at level 10, x pattern, m at level 100, k at level 200).

(** ** Node configuration ([node.Config], the fields this package reads) *)

Record Config : Type := {
  Name : string;
  BinaryPath : string;
  StakingKey : string;
  StakingCert : string;
  StakingSigningKey : string;
  ConfigFile : string;
  ChainConfigFiles : gomap string;
  UpgradeConfigFiles : gomap string;
  SubnetConfigFiles : gomap string;
  Flags : gomap value
}.

(** The constants of the package and of the node's [config] and
    [constants] packages that provisioning names. *)
Record Constants : Type := {
  stakingKeyFileName : string;
  stakingCertFileName : string;
  stakingSigningKeyFileName : string;
  genesisFileName : string;
  configFileName : string;
  upgradeConfigFileName : string;
  chainConfigSubDir : string;
  subnetConfigSubDir : string;
  StakingTLSKeyPathKey : string;
  StakingCertPathKey : string;
  StakingSignerKeyPathKey : string;
  GenesisFileKey : string;
  ConfigFileKey : string;
  ChainConfigDirKey : string;
  SubnetConfigDirKey : string;
  LocalID : Z
}.

(** The flag keys provisioning assigns, in a list. *)
Definition flag_keys (c : Constants) : list string :=
  [ StakingTLSKeyPathKey c; StakingCertPathKey c; StakingSignerKeyPathKey c;
    GenesisFileKey c; ConfigFileKey c; ChainConfigDirKey c; SubnetConfigDirKey c ].

(** The library functions provisioning calls, and the environment's say on
    each call: [os_fails t c] is the error call [c] comes back with after
    the trace [t], if it fails. *)
Record Library : Type := {
  filepath_Join : list string -> string;
  filepath_Dir : string -> string;
  base64_DecodeString : string -> result (list Byte.byte);
  os_IsExist : error -> bool;
  os_fails : trace -> call -> option error
}.

(** ** Provisioning: [createFileAndWrite], [makeNodeDir], [writeFiles] *)

Section Provisioning.

Variable range : forall V : Type, gmap string V -> list (string * V).
Variable lib : Library.
Variable c : Constants.

Definition syscall (k : call) : M unit :=
  fun t =>
    match os_fails lib t k with
    | None => (Ok tt, t ++ [Called k None])
    | Some err => (Err err, t ++ [Called k (Some err)])
    end.

(** [createFileAndWrite]: the deferred [Close] runs after [Write], whose
    error is the one returned. *)
Definition createFileAndWrite (path : string) (contents : list Byte.byte) : M unit :=
  let* _ := syscall (MkdirAll (filepath_Dir lib path) mode_0o750) in
  let* _ := syscall (Create path) in
  fun t =>
    let '(err, t1) := syscall (Write path contents) t in
    let '(_, t2) := syscall (Close path) t1 in
    (err, t2).

Definition getNodeDir (rootDir nodeName : string) : string :=
  filepath_Join lib [rootDir; nodeName].

(** [makeNodeDir] *)
Definition makeNodeDir (rootDir nodeName : string) : M string :=
  let* _ :=
    if String.eqb rootDir "" then
      warn "no network root directory defined; will create this node's runtime directory in working directory" []
    else ret tt in
  let nodeRootDir := getNodeDir rootDir nodeName in
  fun t =>
    match syscall (Mkdir nodeRootDir mode_0o755) t with
    | (Err err, t1) =>
        if negb (os_IsExist lib err) then
          (Err (Wrapf "error creating temp dir %w" [] err), t1)
        else
          (let* _ := warn "node root directory already exists" [("root-dir", nodeRootDir)] in
           ret nodeRootDir) t1
    | (Ok _, t1) => (Ok nodeRootDir, t1)
    end.

Record file : Type := {
  pathKey : string;
  flagValue : string;
  path : string;
  contents : list Byte.byte
}.

Definition node_file (nodeRootDir fileName key : string) (bytes : list Byte.byte) : file :=
  {| flagValue := filepath_Join lib [nodeRootDir; fileName];
     path := filepath_Join lib [nodeRootDir; fileName];
     pathKey := key;
     contents := bytes |}.

(** The slice [files] of [writeFiles] when its loop starts. *)
Definition files_of (networkID : Z) (genesis : list Byte.byte) (nodeRootDir : string)
    (nodeConfig : Config) (decodedStakingSigningKey : list Byte.byte) : list file :=
  let files :=
    [ node_file nodeRootDir (stakingKeyFileName c) (StakingTLSKeyPathKey c)
        (String.list_byte_of_string (StakingKey nodeConfig));
      node_file nodeRootDir (stakingCertFileName c) (StakingCertPathKey c)
        (String.list_byte_of_string (StakingCert nodeConfig));
      node_file nodeRootDir (stakingSigningKeyFileName c) (StakingSignerKeyPathKey c)
        decodedStakingSigningKey ] in
  let files :=
    if negb (networkID =? LocalID c) then
      files ++ [node_file nodeRootDir (genesisFileName c) (GenesisFileKey c) genesis]
    else files in
  let files :=
    if negb (Nat.eqb (String.length (ConfigFile nodeConfig)) 0) then
      files ++ [node_file nodeRootDir (configFileName c) (ConfigFileKey c)
                  (String.list_byte_of_string (ConfigFile nodeConfig))]
    else files in
  files.

Definition couldnt_write (path : string) (err : error) : error :=
  Wrapf "couldn't write file at %q: %w" [VString path] err.

(** The loop over [files]. *)
Fixpoint write_files (files : list file) (flags : gmap string string)
    : M (gmap string string) :=
  match files with
  | [] => ret flags
  | f :: rest =>
      let flags := <[pathKey f := flagValue f]> flags in
      let* _ := wrapping (couldnt_write (path f))
                  (createFileAndWrite (path f) (contents f)) in
      write_files rest flags
  end.

(** The three loops over the override maps: one file per entry, at the
    path the key gives. *)
Fixpoint write_overrides (pathOf : string -> string)
    (entries : list (string * string)) : M unit :=
  match entries with
  | [] => ret tt
  | (key, text) :: rest =>
      let* _ := wrapping (couldnt_write (pathOf key))
                  (createFileAndWrite (pathOf key) (String.list_byte_of_string text)) in
      write_overrides pathOf rest
  end.

Definition chainConfigPath (chainConfigDir chainAlias : string) : string :=
  filepath_Join lib [chainConfigDir; chainAlias; configFileName c].

Definition chainUpgradePath (chainConfigDir chainAlias : string) : string :=
  filepath_Join lib [chainConfigDir; chainAlias; upgradeConfigFileName c].

Definition subnetConfigPath (subnetConfigDir subnetID : string) : string :=
  filepath_Join lib [subnetConfigDir; String.append subnetID ".json"].

(** [writeFiles] *)
Definition writeFiles (networkID : Z) (genesis : list Byte.byte) (nodeRootDir : string)
    (nodeConfig : Config) : M (gmap string string) :=
  let* decodedStakingSigningKey :=
    lift (base64_DecodeString lib (StakingSigningKey nodeConfig)) in
  let files := files_of networkID genesis nodeRootDir nodeConfig decodedStakingSigningKey in
  let* flags := write_files files ∅ in
  let chainConfigDir := filepath_Join lib [nodeRootDir; chainConfigSubDir c] in
  let* _ := syscall (MkdirAll chainConfigDir mode_0o750) in
  let flags := <[ChainConfigDirKey c := chainConfigDir]> flags in
  let subnetConfigDir := filepath_Join lib [nodeRootDir; subnetConfigSubDir c] in
  let* _ := syscall (MkdirAll subnetConfigDir mode_0o750) in
  let flags := <[SubnetConfigDirKey c := subnetConfigDir]> flags in
  let* _ := write_overrides (chainConfigPath chainConfigDir)
              (range_of range (ChainConfigFiles nodeConfig)) in
  let* _ := write_overrides (chainUpgradePath chainConfigDir)
              (range_of range (UpgradeConfigFiles nodeConfig)) in
  let* _ := write_overrides (subnetConfigPath subnetConfigDir)
              (range_of range (SubnetConfigFiles nodeConfig)) in
  ret flags.

End Provisioning.

(** ** The node runtime handle: [localNode] *)

Section Node.

(** Types of the node's libraries; their values are opaque here. *)
Context {Peer Conn TLSCert Cert Creator Metrics ResourceTracker : Type}.
Context {InboundHandler Ctx OutboundMessage : Type}.

(** [peerStartWaitTimeout], in seconds. *)
Definition peerStartWaitTimeout : Z := 30.

(** [localNode].  The fields [nodeID], [client] and [process] hold
    library objects that none of the functions below reads; they are left
    out.  [getConnFunc] is applied to the handle itself, which is not
    repeated as an argument. *)
Record localNode : Type := {
  name : string;
  networkID : Z;
  apiPort : Z;
  p2pPort : Z;
  getConnFunc : Ctx -> result Conn;
  dbDir : string;
  logsDir : string;
  buildDir : string;
  config : Config;
  httpHost : string;
  attachedPeers : gomap Peer
}.

Definition with_attachedPeers (peers : gomap Peer) (node : localNode) : localNode :=
  {| name := name node; networkID := networkID node; apiPort := apiPort node;
     p2pPort := p2pPort node; getConnFunc := getConnFunc node; dbDir := dbDir node;
     logsDir := logsDir node; buildDir := buildDir node; config := config node;
     httpHost := httpHost node; attachedPeers := peers |}.

(** [peer.Config], the fields that are not constants. *)
Record peerConfig : Type := {
  cfgMetrics : Metrics;
  cfgMessageCreator : Creator;
  cfgMessageCreatorWithProto : Creator;
  cfgRouter : InboundHandler;
  cfgNetworkID : Z;
  cfgResourceTracker : ResourceTracker
}.

(** What the libraries answer during one call of [AttachPeer].
    [AwaitReady p ctx bound] is [p.AwaitReady] under the caller's context
    narrowed by the bound: [None] when the peer became ready, the
    context's error when the bound elapsed or the caller cancelled. *)
Record Attachment : Type := {
  staking_NewTLSCert : result TLSCert;
  message_NewCreator : result Creator;
  message_NewCreatorWithProto : result Creator;
  peer_NewMetrics : result Metrics;
  tracker_NewResourceTracker : result ResourceTracker;
  Upgrade : TLSCert -> Conn -> result (Conn * Cert);
  peer_Start : peerConfig -> Conn -> Cert -> TLSCert -> Peer;
  AwaitReady : Peer -> Ctx -> Z -> option error;
  ID_String : Peer -> string
}.

(** [AttachPeer]: the result, and the handle afterwards. *)
Definition AttachPeer (lib : Attachment) (node : localNode) (ctx : Ctx)
    (router : InboundHandler) : outcome (result Peer) * localNode :=
  match staking_NewTLSCert lib with
  | Err err => (Done (Err err), node)
  | Ok tlsCert =>
  match getConnFunc node ctx with
  | Err err => (Done (Err err), node)
  | Ok conn =>
  match message_NewCreator lib with
  | Err err => (Done (Err err), node)
  | Ok mc =>
  match message_NewCreatorWithProto lib with
  | Err err => (Done (Err err), node)
  | Ok mcProto =>
  match peer_NewMetrics lib with
  | Err err => (Done (Err err), node)
  | Ok metrics =>
  match tracker_NewResourceTracker lib with
  | Err err => (Done (Err err), node)
  | Ok resourceTracker =>
  let config :=
    {| cfgMetrics := metrics;
       cfgMessageCreator := mc;
       cfgMessageCreatorWithProto := mcProto;
       cfgRouter := router;
       cfgNetworkID := networkID node;
       cfgResourceTracker := resourceTracker |} in
  match Upgrade lib tlsCert conn with
  | Err err => (Done (Err err), node)
  | Ok (conn', cert) =>
  let p := peer_Start lib config conn' cert tlsCert in
  match AwaitReady lib p ctx peerStartWaitTimeout with
  | Some err => (Done (Err err), node)
  | None =>
  match assign (attachedPeers node) (ID_String lib p) p with
  | Panic msg => (Panic msg, node)
  | Done peers => (Done (Ok p), with_attachedPeers peers node)
  end end end end end end end end end.

(** The message library and the peer's send path. *)
Record Messaging : Type := {
  message_Op : Z -> Z;
  message_NewTestMsg : Z -> list Byte.byte -> bool -> OutboundMessage;
  peer_Send : Peer -> Ctx -> OutboundMessage -> bool
}.

(** [SendOutboundMessage] *)
Definition SendOutboundMessage (lib : Messaging) (node : localNode) (ctx : Ctx)
    (peerID : string) (content : list Byte.byte) (op : Z) : bool * option error :=
  match index (attachedPeers node) peerID with
  | None => (false, Some (Errorf "peer with ID %s is not attached here" [VString peerID]))
  | Some attachedPeer =>
      let msg := message_NewTestMsg lib (message_Op lib op) content false in
      (peer_Send lib attachedPeer ctx msg, None)
  end.

(** [json.Unmarshal] of a text into a [map[string]interface{}] that was
    nil before. *)
Variable json_Unmarshal : string -> result (gomap value).

(** [GetFlag] *)
Definition GetFlag (node : localNode) (k : string) : result string :=
  let v := "" in
  if negb (String.eqb (ConfigFile (config node)) "") then
    match json_Unmarshal (ConfigFile (config node)) with
    | Err err => Err err
    | Ok configFileMap =>
        match index configFileMap k with
        | Some vIntf =>
            match vIntf with
            | VString v' => Ok v'
            | _ => Err (Errorf "unexpected type for %q expected string got %T"
                          [VString k; vIntf])
            end
        | None => Ok v
        end
    end
  else
    match Flags (config node) with
    | Some flags =>
        match flags !! k with
        | Some vIntf =>
            match vIntf with
            | VString v' => Ok v'
            | _ => Err (Errorf "unexpected type for %q expected string got %T"
                          [VString k; vIntf])
            end
        | None => Ok v
        end
    | None => Ok v
    end.

End Node.

(** ** The node runtime handle: accessors and the default dial *)

Section Accessors.

Context {Peer Conn Ctx : Type}.

Definition GetName (node : @localNode Peer Conn Ctx) : string := name node.

(** [GetURL] *)
Definition GetURL (node : @localNode Peer Conn Ctx) : string :=
  if String.eqb (httpHost node) "0.0.0.0" || String.eqb (httpHost node) "."
  then "0.0.0.0" else "127.0.0.1".

Definition GetP2PPort (node : @localNode Peer Conn Ctx) : Z := p2pPort node.

Definition GetAPIPort (node : @localNode Peer Conn Ctx) : Z := apiPort node.

Definition GetBinaryPath (node : @localNode Peer Conn Ctx) : string :=
  BinaryPath (config node).

(** [GetBuildDir], over [filepath.Dir]. *)
Definition GetBuildDir (filepath_Dir : string -> string)
    (node : @localNode Peer Conn Ctx) : string :=
  if String.eqb (buildDir node) "" then filepath_Dir (GetBinaryPath node)
  else buildDir node.

Definition GetDbDir (node : @localNode Peer Conn Ctx) : string := dbDir node.

Definition GetLogsDir (node : @localNode Peer Conn Ctx) : string := logsDir node.

Definition GetConfigFile (node : @localNode Peer Conn Ctx) : string :=
  ConfigFile (config node).

Definition GetConfig (node : @localNode Peer Conn Ctx) : Config := config node.

(** [net.JoinHostPort]: a host with a colon in it goes between brackets. *)
Definition JoinHostPort (host port : string) : string :=
  if existsb (Ascii.eqb (Ascii.ascii_of_nat 58)) (String.list_ascii_of_string host)
  then String.append "[" (String.append host (String.append "]:" port))
  else String.append host (String.append ":" port).

(** [fmt.Sprintf] with the verb [%d], of a uint16. *)
Definition Sprintf_d (n : Z) : string := pretty n.

(** [defaultGetConnFunc], over the dialer's [DialContext] and the network
    type of the node's [constants] package. *)
Definition defaultGetConnFunc (DialContext : Ctx -> string -> string -> result Conn)
    (NetworkType : string) (node : @localNode Peer Conn Ctx) (ctx : Ctx)
    : result Conn :=
  DialContext ctx NetworkType
    (JoinHostPort (GetURL node) (Sprintf_d (GetP2PPort node))).

End Accessors.

(** ** Vocabulary of the properties *)

(** Reading a trace. *)
Definition written (t : trace) : list (string * list Byte.byte) :=
  omap (fun k => match k with Write p bytes => Some (p, bytes) | _ => None end)
       (succeeded t).

(** The paths of the override files [writeFiles] writes, in the order of
    its three loops. *)
Definition override_paths (range : forall V : Type, gmap string V -> list (string * V))
    (lib : Library) (c : Constants) (nodeRootDir : string) (nodeConfig : Config)
    : list string :=
  let chainConfigDir := filepath_Join lib [nodeRootDir; chainConfigSubDir c] in
  let subnetConfigDir := filepath_Join lib [nodeRootDir; subnetConfigSubDir c] in
  (chainConfigPath lib c chainConfigDir <$> (range_of range (ChainConfigFiles nodeConfig)).*1)
  ++ (chainUpgradePath lib c chainConfigDir <$> (range_of range (UpgradeConfigFiles nodeConfig)).*1)
  ++ (subnetConfigPath lib subnetConfigDir <$> (range_of range (SubnetConfigFiles nodeConfig)).*1).

(** The paths of the three credential files. *)
Definition staking_paths (lib : Library) (c : Constants) (nodeRootDir : string)
    : list string :=
  [ filepath_Join lib [nodeRootDir; stakingKeyFileName c];
    filepath_Join lib [nodeRootDir; stakingCertFileName c];
    filepath_Join lib [nodeRootDir; stakingSigningKeyFileName c] ].

(** The paths of the files of the slice [files]: the credential files,
    then the genesis file off the local network, then the config file when
    there is a text. *)
Definition node_paths (lib : Library) (c : Constants) (networkID : Z)
    (nodeRootDir : string) (nodeConfig : Config) : list string :=
  staking_paths lib c nodeRootDir
  ++ (if negb (networkID =? LocalID c)
      then [filepath_Join lib [nodeRootDir; genesisFileName c]] else [])
  ++ (if negb (Nat.eqb (String.length (ConfigFile nodeConfig)) 0)
      then [filepath_Join lib [nodeRootDir; configFileName c]] else []).

(** A stretch of trace that asks for directories with [MkdirAll] and mode
    0o750 only, and creates files at the given paths only. *)
Definition confined (paths : list string) (evs : trace) : Prop :=
  Forall (fun perm => perm = mode_0o750) (mkdirall_modes evs) /\
  mkdir_modes evs = [] /\
  forall p, p ∈ created evs -> p ∈ paths.

(** A stretch of trace in which the file at [path] was created, parent
    directory first, and given [contents]. *)
Definition performed (lib : Library) (path : string) (contents : list Byte.byte)
    (evs : trace) : Prop :=
  MkdirAll (filepath_Dir lib path) mode_0o750 ∈ succeeded evs /\
  Create path ∈ succeeded evs /\
  (path, contents) ∈ written evs.

(** The flag map after the loop over [files]. *)
Definition flags_after (files : list file) (flags : gmap string string)
    : gmap string string :=
  foldl (fun fl f => <[pathKey f := flagValue f]> fl) flags files.

(** The modes of the directory calls of a trace read as: owner and group
    may read, write and search and nobody else may do anything (for
    [MkdirAll]); the owner alone may read, write and search (for [Mkdir]). *)
Definition modes_owner_group_rwx (t : trace) : bool :=
  forallb (fun perm => owner_rwx perm && group_rwx perm && world_none perm)
          (mkdirall_modes t).

Definition modes_owner_only_rwx (t : trace) : bool :=
  forallb (fun perm => owner_rwx perm && owner_only perm) (mkdir_modes t).

(** The value [getConfigEntry] decides on: the one of the node flags, else
    the one of the config file. *)
Definition consulted (nodeConfigFlags configFile : gomap value) (flag : string)
    : option value :=
  match index nodeConfigFlags flag with
  | Some v => Some v
  | None => index configFile flag
  end.

(** Every stage of [AttachPeer] answers: the libraries hand back their
    objects, the dial and the upgrade succeed, and the peer started on the
    upgraded connection becomes ready within the bound. *)
Definition stages_succeed
    {Peer Conn TLSCert Cert Creator Metrics ResourceTracker InboundHandler Ctx : Type}
    (lib : @Attachment Peer Conn TLSCert Cert Creator Metrics ResourceTracker
             InboundHandler Ctx)
    (node : @localNode Peer Conn Ctx) (ctx : Ctx) (router : InboundHandler) : Prop :=
  exists tlsCert conn mc mcProto metrics resourceTracker conn' cert,
    staking_NewTLSCert lib = Ok tlsCert /\
    getConnFunc node ctx = Ok conn /\
    message_NewCreator lib = Ok mc /\
    message_NewCreatorWithProto lib = Ok mcProto /\
    peer_NewMetrics lib = Ok metrics /\
    tracker_NewResourceTracker lib = Ok resourceTracker /\
    Upgrade lib tlsCert conn = Ok (conn', cert) /\
    AwaitReady lib
      (peer_Start lib
         {| cfgMetrics := metrics; cfgMessageCreator := mc;
            cfgMessageCreatorWithProto := mcProto; cfgRouter := router;
            cfgNetworkID := networkID node; cfgResourceTracker := resourceTracker |}
         conn' cert tlsCert)
      ctx peerStartWaitTimeout = None.

(** Where [GetFlag] reads: the parsed config-file text when there is a
    text, the flag map otherwise. *)
Definition flag_source {Peer Conn Ctx : Type}
    (json_Unmarshal : string -> result (gomap value))
    (node : @localNode Peer Conn Ctx) : result (gomap value) :=
  if String.eqb (ConfigFile (config node)) "" then Ok (Flags (config node))
  else json_Unmarshal (ConfigFile (config node)).

(** The failed calls of a trace with their errors, closes left out (the
    error of a close is dropped by [createFileAndWrite]). *)
Definition failures (t : trace) : list (call * error) :=
  omap (fun ev => match ev with
                  | Called (Close _) _ => None
                  | Called k (Some err) => Some (k, err)
                  | _ => None
                  end) t.

(** The paths closed and the warnings logged in a trace. *)
Definition closed (t : trace) : list string :=
  omap (fun k => match k with Close p => Some p | _ => None end) (calls t).

Definition warnings (t : trace) : list string :=
  omap (fun ev => match ev with LogWarn msg _ => Some msg | _ => None end) t.

(** The calls [createFileAndWrite] makes for a file, the close apart. *)
Definition file_calls (lib : Library) (path : string) (contents : list Byte.byte)
    : list call :=
  [ MkdirAll (filepath_Dir lib path) mode_0o750; Create path; Write path contents ].

(** ** Sample inputs *)

(** The names the package and the node use. *)
Definition sample_constants : Constants :=
  {| stakingKeyFileName := "staking.key";
     stakingCertFileName := "staking.crt";
     stakingSigningKeyFileName := "signer.key";
     genesisFileName := "genesis.json";
     configFileName := "config.json";
     upgradeConfigFileName := "upgrade.json";
     chainConfigSubDir := "chainConfigs";
     subnetConfigSubDir := "subnetConfigs";
     StakingTLSKeyPathKey := "staking-tls-key-file";
     StakingCertPathKey := "staking-tls-cert-file";
     StakingSignerKeyPathKey := "staking-signer-key-file";
     GenesisFileKey := "genesis-file";
     ConfigFileKey := "config-file";
     ChainConfigDirKey := "chain-config-dir";
     SubnetConfigDirKey := "subnet-config-dir";
     LocalID := 12345 |}.

(** [filepath.Join] on elements that need no cleaning: the elements that
    are not empty, separated by a slash. *)
Definition join_plain (elems : list string) : string :=
  String.concat "/" (List.filter (fun e => negb (String.eqb e "")) elems).

Fixpoint after_slash (l : list Ascii.ascii) : list Ascii.ascii :=
  match l with
  | [] => []
  | a :: rest => if Ascii.eqb a (Ascii.ascii_of_nat 47) then rest else after_slash rest
  end.

(** [filepath.Dir] on a clean path that has a slash: all but the last
    element. *)
Definition dir_plain (p : string) : string :=
  String.string_of_list_ascii
    (rev (after_slash (rev (String.list_ascii_of_string p)))).

(** An environment where no call fails, and a decoder that knows the
    encoding of the bytes 1, 2, 3. *)
Definition sample_lib : Library :=
  {| filepath_Join := join_plain;
     filepath_Dir := dir_plain;
     base64_DecodeString := fun s =>
       if String.eqb s "AQID" then Ok [Byte.x01; Byte.x02; Byte.x03]
       else Err (ErrExternal "illegal base64 data");
     os_IsExist := fun err =>
       match err with ErrExternal what => String.eqb what "file exists" | _ => false end;
     os_fails := fun _ _ => None |}.

Definition sample_range (V : Type) (m : gmap string V) : list (string * V) :=
  map_to_list m.

Definition sample_config (configFile : string) : Config :=
  {| Name := "node1";
     BinaryPath := "/usr/local/bin/node";
     StakingKey := "key";
     StakingCert := "cert";
     StakingSigningKey := "AQID";
     ConfigFile := configFile;
     ChainConfigFiles := Some {[ "C" := "{}" ]};
     UpgradeConfigFiles := None;
     SubnetConfigFiles := None;
     Flags := Some {[ "log-level" := VString "debug"; "http-port" := VInt 9650 ]} |}.

(** A handle with an empty registry, whose dial answers [dial]. *)
Definition sample_node (configFile : string) (dial : result unit)
    : @localNode unit unit unit :=
  {| name := "node1"; networkID := 1337; apiPort := 9650; p2pPort := 9651;
     getConnFunc := fun _ => dial;
     dbDir := "db"; logsDir := "logs"; buildDir := "";
     config := sample_config configFile; httpHost := "";
     attachedPeers := Some ∅ |}.

Definition connection_refused : error := ErrExternal "connection refused".

(** Libraries that all answer, and a peer that becomes ready. *)
Definition sample_attachment : @Attachment unit unit unit unit unit unit unit unit unit :=
  {| staking_NewTLSCert := Ok tt;
     message_NewCreator := Ok tt;
     message_NewCreatorWithProto := Ok tt;
     peer_NewMetrics := Ok tt;
     tracker_NewResourceTracker := Ok tt;
     Upgrade := fun _ conn => Ok (conn, tt);
     peer_Start := fun _ _ _ _ => tt;
     AwaitReady := fun _ _ _ => None;
     ID_String := fun _ => "NodeID-sample" |}.

(** A message is its opcode and payload; the peer's queue takes it. *)
Definition sample_messaging : @Messaging unit unit (Z * list Byte.byte) :=
  {| message_Op := fun op => op mod 256;
     message_NewTestMsg := fun op content _ => (op, content);
     peer_Send := fun _ _ _ => true |}.

(** A parser that knows the empty object. *)
Definition sample_Unmarshal (text : string) : result (gomap value) :=
  if String.eqb text "{}" then Ok (Some ∅)
  else Err (ErrExternal "invalid character").

Definition sample_network_flags : gmap string value :=
  {[ "log-level" := VString "info"; "network-id" := VInt 1337 ]}.

Definition sample_node_flags : gmap string value :=
  {[ "log-level" := VString "debug" ]}.

(** A config-file text with one entry, and a parser that knows it and the
    empty object.  The text is [{"log-level":"info"}]. *)
Definition double_quote : string := String (Ascii.ascii_of_nat 34) "".

Definition sample_document : string :=
  String.concat ""
    [ "{"; double_quote; "log-level"; double_quote; ":";
      double_quote; "info"; double_quote; "}" ].

Definition sample_Unmarshal_document (text : string) : result (gomap value) :=
  if String.eqb text sample_document then Ok (Some {[ "log-level" := VString "info" ]})
  else sample_Unmarshal text.

Definition sample_node_with_document : @localNode unit unit unit :=
  {| name := "node1"; networkID := 1337; apiPort := 9650; p2pPort := 9651;
     getConnFunc := fun _ => Ok tt;
     dbDir := "db"; logsDir := "logs"; buildDir := "";
     config := sample_config sample_document; httpHost := "";
     attachedPeers := Some ∅ |}.

(** An environment where the certificate file cannot be created. *)
Definition permission_denied : error := ErrExternal "permission denied".

Definition refusing_lib : Library :=
  {| filepath_Join := join_plain;
     filepath_Dir := dir_plain;
     base64_DecodeString := base64_DecodeString sample_lib;
     os_IsExist := os_IsExist sample_lib;
     os_fails := fun _ k =>
       match k with
       | Create p =>
           if String.eqb p "/tmp/net/node1/staking.crt" then Some permission_denied
           else None
       | _ => None
       end |}.

(** A second set of network flags. *)
Definition sample_more_flags : gmap string value :=
  {[ "network-id" := VInt 1; "public-ip" := VString "127.0.0.1" ]}.

(** * Properties *)

(** ** Flag maps *)

(** What a type-mismatch error names: [names_key_and_type e k v] when [e]
    was built from the key [k] and from an operand whose type, as [%T]
    prints it, is the type of [v]. *)
Definition names_key_and_type (e : error) (k : string) (v : value) : bool :=
  match e with
  | Errorf _ [VString k'; operand] =>
      String.eqb k' k && String.eqb (fmt_T operand) (fmt_T v)
  | _ => false
  end.

Definition is_string (v : value) : bool :=
  match v with VString _ => true | _ => false end.

Section FlagFacts.

Variable range : forall V : Type, gmap string V -> list (string * V).
Variable uint16_unrepresentable : spec_float -> Z.
Variable getFreePort : result Z.

Lemma addNetworkFlags_loop_union (entries : list (string * value))
    (B : gmap string value) :
  addNetworkFlags_loop entries (Some B) = Done (Some (B ∪ list_to_map entries)).
Proof.
  revert B. induction entries as [|[k v] rest IH]; intros B; simpl.
  - by rewrite (right_id_L ∅ (∪)).
  - destruct (B !! k) as [w|] eqn:HBk.
    + rewrite IH. do 2 f_equal. apply map_eq. intros i.
      rewrite !lookup_union. destruct (decide (k = i)) as [->|Hne].
      * rewrite HBk, lookup_insert_eq. by destruct (list_to_map rest !! i).
      * by rewrite lookup_insert_ne.
    + rewrite IH. do 2 f_equal. apply map_eq. intros i.
      rewrite !lookup_union. destruct (decide (k = i)) as [->|Hne].
      * rewrite !lookup_insert_eq, HBk. simpl.
        by destruct (list_to_map rest !! i).
      * by rewrite !lookup_insert_ne.
Qed.

Lemma addNetworkFlags_union (A B : gmap string value) :
  range value A ≡ₚ map_to_list A ->
  addNetworkFlags range (Some A) (Some B) = Done (Some (B ∪ A)).
Proof.
  intros Hperm. unfold addNetworkFlags. simpl.
  rewrite addNetworkFlags_loop_union. do 3 f_equal.
  rewrite (list_to_map_proper (range value A) (map_to_list A)).
  - apply list_to_map_to_list.
  - rewrite Hperm. apply NoDup_fst_map_to_list.
  - done.
Qed.

(** A nil network map adds nothing, whatever the node map is. *)
Lemma addNetworkFlags_nil_network (nodeFlags : gomap value) :
  addNetworkFlags range None nodeFlags = Done nodeFlags.
Proof. reflexivity. Qed.

(** A nil node map is left alone as long as there is nothing to add, and
    the first assignment panics. *)
Lemma addNetworkFlags_nil_node (A : gmap string value) :
  range value A ≡ₚ map_to_list A ->
  addNetworkFlags range (Some A) None =
    if decide (A = ∅) then Done None else Panic "assignment to entry in nil map".
Proof.
  intros Hperm. unfold addNetworkFlags. simpl.
  destruct (range value A) as [|[k v] rest] eqn:Hr.
  - symmetry in Hperm. apply Permutation_nil_r in Hperm.
    apply map_to_list_empty_iff in Hperm. by rewrite decide_True.
  - simpl. rewrite decide_False; [done|]. intros ->.
    rewrite map_to_list_empty in Hperm.
    by apply Permutation_nil_r in Hperm.
Qed.

(** C3: [addNetworkFlags] leaves in the node map its own value for every
    key it had, and gives every other key the value the network map has
    for it (none when it has none). *)
Theorem addNetworkFlags_merge (A B : gmap string value) :
  range value A ≡ₚ map_to_list A ->
  exists B' : gmap string value,
    addNetworkFlags range (Some A) (Some B) = Done (Some B') /\
    (forall k v, B !! k = Some v -> B' !! k = Some v) /\
    (forall k, B !! k = None -> B' !! k = A !! k).
Proof.
  intros Hperm. exists (B ∪ A). split; [by apply addNetworkFlags_union|].
  split.
  - intros k v Hk. by apply lookup_union_Some_l.
  - intros k Hk. by rewrite lookup_union_r.
Qed.

Lemma uint16_of_int_mod (n : Z) : uint16_of_int n = n mod 65536.
Proof.
  unfold uint16_of_int. change 65535 with (Z.ones 16).
  rewrite Z.land_ones by lia. reflexivity.
Qed.

Lemma uint16_of_int_range (n : Z) : 0 <= uint16_of_int n < 65536.
Proof. rewrite uint16_of_int_mod. apply Z.mod_pos_bound. lia. Qed.

Lemma uint16_of_float64_fits (f : spec_float) (n : Z) :
  float64_trunc f = Some n -> fits_uint16 n = true ->
  uint16_of_float64 uint16_unrepresentable f = n.
Proof. intros Ht Hfit. unfold uint16_of_float64. by rewrite Ht, Hfit. Qed.


(** When the operating system has no port to give, [getPort] fails with
    the wrapped error. *)
Lemma getPort_no_free_port (flags configFile : gomap value) (portKey : string)
    (err : error) :
  index flags portKey = None -> index configFile portKey = None ->
  getFreePort = Err err ->
  getPort uint16_unrepresentable getFreePort flags configFile portKey =
    Err (Wrapf "couldn't get free port: %w" [] err).
Proof. unfold getPort. by intros -> -> ->. Qed.

(** Whatever the value that is not a string, both messages of
    [getConfigEntry] are built from the key and from a string. *)
Lemma getConfigEntry_mismatch (nodeConfigFlags configFile : gomap value)
    (flag defaultVal : string) (v : value) :
  is_string v = false ->
  (index nodeConfigFlags flag = Some v ->
     getConfigEntry nodeConfigFlags configFile flag defaultVal =
       Err (Errorf "expected node config flag %q to be string but got %T"
              [VString flag; VString ""])) /\
  (index nodeConfigFlags flag = None -> index configFile flag = Some v ->
     getConfigEntry nodeConfigFlags configFile flag defaultVal =
       Err (Errorf "expected config file flag %q to be string but got %T"
              [VString flag; VString ""])).
Proof.
  intros Hv. unfold getConfigEntry. split.
  - intros ->. by destruct v.
  - intros -> ->. by destruct v.
Qed.

(** The lookup order of [getConfigEntry]: node flags, config file,
    default. *)
Lemma getConfigEntry_strings (nodeConfigFlags configFile : gomap value)
    (flag defaultVal : string) :
  (forall s, index nodeConfigFlags flag = Some (VString s) ->
     getConfigEntry nodeConfigFlags configFile flag defaultVal = Ok s) /\
  (forall s, index nodeConfigFlags flag = None ->
     index configFile flag = Some (VString s) ->
     getConfigEntry nodeConfigFlags configFile flag defaultVal = Ok s) /\
  (index nodeConfigFlags flag = None -> index configFile flag = None ->
     getConfigEntry nodeConfigFlags configFile flag defaultVal = Ok defaultVal).
Proof.
  unfold getConfigEntry. split; [|split].
  - by intros s ->.
  - by intros s -> ->.
  - by intros -> ->.
Qed.

End FlagFacts.

(** ** The node runtime handle *)

Section NodeFacts.

Context {Peer Conn TLSCert Cert Creator Metrics ResourceTracker : Type}.
Context {InboundHandler Ctx OutboundMessage : Type}.

Abbreviation node_t := (@localNode Peer Conn Ctx).
Abbreviation attachment_t :=
  (@Attachment Peer Conn TLSCert Cert Creator Metrics ResourceTracker InboundHandler Ctx).

Lemma with_attachedPeers_same (node : node_t) :
  with_attachedPeers (attachedPeers node) node = node.
Proof. by destruct node. Qed.

(** X10: every stage that fails makes [AttachPeer] return that stage's
    error, as it is; the stages after it are not reached. *)
Lemma AttachPeer_stage_errors (lib : attachment_t) (node : node_t) (ctx : Ctx)
    (router : InboundHandler) (err : error) :
  let r := (AttachPeer lib node ctx router).1 in
  (staking_NewTLSCert lib = Err err -> r = Done (Err err)) /\
  (forall tlsCert, staking_NewTLSCert lib = Ok tlsCert ->
     (getConnFunc node ctx = Err err -> r = Done (Err err)) /\
     forall conn, getConnFunc node ctx = Ok conn ->
     (message_NewCreator lib = Err err -> r = Done (Err err)) /\
     forall mc, message_NewCreator lib = Ok mc ->
     (message_NewCreatorWithProto lib = Err err -> r = Done (Err err)) /\
     forall mcProto, message_NewCreatorWithProto lib = Ok mcProto ->
     (peer_NewMetrics lib = Err err -> r = Done (Err err)) /\
     forall metrics, peer_NewMetrics lib = Ok metrics ->
     (tracker_NewResourceTracker lib = Err err -> r = Done (Err err)) /\
     forall resourceTracker, tracker_NewResourceTracker lib = Ok resourceTracker ->
     (Upgrade lib tlsCert conn = Err err -> r = Done (Err err)) /\
     forall conn' cert, Upgrade lib tlsCert conn = Ok (conn', cert) ->
     let p := peer_Start lib
                {| cfgMetrics := metrics; cfgMessageCreator := mc;
                   cfgMessageCreatorWithProto := mcProto; cfgRouter := router;
                   cfgNetworkID := networkID node;
                   cfgResourceTracker := resourceTracker |} conn' cert tlsCert in
     (AwaitReady lib p ctx 30 = Some err -> r = Done (Err err))).
Proof.
  unfold AttachPeer. split; [by intros ->|].
  intros tlsCert ->. split; [by intros ->|].
  intros conn ->. split; [by intros ->|].
  intros mc ->. split; [by intros ->|].
  intros mcProto ->. split; [by intros ->|].
  intros metrics ->. split; [by intros ->|].
  intros resourceTracker ->. split; [by intros ->|].
  intros conn' cert ->. simpl. unfold peerStartWaitTimeout. by intros ->.
Qed.

(** C1: when [AttachPeer] returns an error the handle, its registry
    included, is what it was; the registry changes only in a call that
    returns a peer, and then by the assignment of that peer under its
    identity string. *)
Theorem AttachPeer_registry (lib : attachment_t) (node : node_t) (ctx : Ctx)
    (router : InboundHandler) :
  let r := (AttachPeer lib node ctx router).1 in
  let node' := (AttachPeer lib node ctx router).2 in
  (forall err, r = Done (Err err) -> node' = node) /\
  (forall p, r = Done (Ok p) ->
     exists peers, attachedPeers node = Some peers /\
       attachedPeers node' = Some (<[ID_String lib p := p]> peers)) /\
  (attachedPeers node' <> attachedPeers node -> exists p, r = Done (Ok p)).
Proof.
  unfold AttachPeer.
  repeat match goal with
         | |- context [match ?x with _ => _ end] => destruct x eqn:?; simpl
         end;
    (split; [|split]); try done; try (intros; simplify_eq; eauto; done).
  intros p Hp. simplify_eq. unfold assign in *.
  destruct (attachedPeers node) as [peers|]; [|done].
  simplify_eq. eauto.
Qed.

(** X11: in calls made one after the other nothing is lost: a call that
    returns a peer leaves every other entry of the registry as it was, and
    the new peer is found under its identity string (replacing an older
    peer of the same identity). *)
Lemma AttachPeer_keeps_other_peers (lib : attachment_t) (node : node_t) (ctx : Ctx)
    (router : InboundHandler) (p : Peer) :
  (AttachPeer lib node ctx router).1 = Done (Ok p) ->
  index (attachedPeers (AttachPeer lib node ctx router).2) (ID_String lib p) = Some p /\
  forall id, id <> ID_String lib p ->
    index (attachedPeers (AttachPeer lib node ctx router).2) id =
      index (attachedPeers node) id.
Proof.
  unfold AttachPeer.
  repeat match goal with
         | |- context [match ?x with _ => _ end] => destruct x eqn:?; simpl
         end; try done.
  intros [= <-]. unfold assign in *.
  destruct (attachedPeers node) as [peers|]; [|done]. simplify_eq. simpl. split.
  - apply lookup_insert_eq.
  - intros id Hid. by apply lookup_insert_ne.
Qed.

Abbreviation messaging_t := (@Messaging Peer Ctx OutboundMessage).

(** C9: [SendOutboundMessage] answers false and a not-attached error for a
    peer ID the registry does not hold; for one it holds, it answers what
    that peer's [Send] says of the message built from the opcode and the
    payload, and no error. *)
Theorem SendOutboundMessage_lookup (lib : messaging_t) (node : node_t) (ctx : Ctx)
    (peerID : string) (content : list Byte.byte) (op : Z) :
  (index (attachedPeers node) peerID = None ->
     SendOutboundMessage lib node ctx peerID content op =
       (false, Some (Errorf "peer with ID %s is not attached here" [VString peerID]))) /\
  (forall p, index (attachedPeers node) peerID = Some p ->
     SendOutboundMessage lib node ctx peerID content op =
       (peer_Send lib p ctx (message_NewTestMsg lib (message_Op lib op) content false),
        None)).
Proof.
  unfold SendOutboundMessage. split.
  - by intros ->.
  - by intros p ->.
Qed.

Variable json_Unmarshal : string -> result (gomap value).

Lemma nonempty_eqb (s : string) : s <> "" -> String.eqb s "" = false.
Proof. intros Hs. by apply String.eqb_neq. Qed.

(** X28: the type mismatch of [GetFlag] names the key and the type of the
    value found, in either source. *)
Lemma GetFlag_mismatch (node : node_t) (k : string) (v : value) :
  is_string v = false ->
  let e := Errorf "unexpected type for %q expected string got %T" [VString k; v] in
  names_key_and_type e k v = true /\
  (ConfigFile (config node) <> "" ->
   forall m, json_Unmarshal (ConfigFile (config node)) = Ok m ->
   index m k = Some v -> GetFlag json_Unmarshal node k = Err e) /\
  (ConfigFile (config node) = "" ->
   index (Flags (config node)) k = Some v -> GetFlag json_Unmarshal node k = Err e).
Proof.
  intros Hv e. split; [|split].
  - subst e. simpl. by rewrite !String.eqb_refl.
  - intros Hne m Hm Hk. unfold GetFlag.
    rewrite (nonempty_eqb _ Hne). simpl. rewrite Hm, Hk. by destruct v.
  - intros He Hk. unfold GetFlag. rewrite He. simpl.
    destruct (Flags (config node)) as [flags|]; [|done].
    simpl in Hk. rewrite Hk. by destruct v.
Qed.

(** C10: with a config-file text, [GetFlag] answers from the parsed text
    alone: two handles with the same text get the same answer whatever
    their flag maps hold, and a key the text lacks gives the empty string
    and no error; without a text, a key the flag map lacks gives the empty
    string and no error. *)
Theorem GetFlag_single_source (node : node_t) (k : string) :
  (ConfigFile (config node) <> "" ->
     (forall node2 : node_t,
        ConfigFile (config node2) = ConfigFile (config node) ->
        GetFlag json_Unmarshal node2 k = GetFlag json_Unmarshal node k) /\
     (forall m, json_Unmarshal (ConfigFile (config node)) = Ok m ->
        index m k = None -> GetFlag json_Unmarshal node k = Ok "")) /\
  (ConfigFile (config node) = "" ->
     index (Flags (config node)) k = None ->
     GetFlag json_Unmarshal node k = Ok "").
Proof.
  split.
  - intros Hne. split.
    + intros node2 Heq. unfold GetFlag. rewrite Heq.
      by rewrite (nonempty_eqb _ Hne).
    + intros m Hm Hk. unfold GetFlag.
      rewrite (nonempty_eqb _ Hne). simpl. by rewrite Hm, Hk.
  - intros He Hk. unfold GetFlag. rewrite He. simpl.
    destruct (Flags (config node)) as [flags|]; [|done].
    simpl in Hk. by rewrite Hk.
Qed.

End NodeFacts.

(** ** Provisioning *)

(** Membership in a list that is a head and a tail. *)
Ltac in_head :=
  intros ? ->%list_elem_of_singleton; simpl; apply elem_of_cons; by left.
Ltac in_tail :=
  intros ? ?; simpl; apply elem_of_cons; by right.

(** The flag keys are pairwise distinct: from [NoDup (flag_keys c)] to the
    inequalities. *)
Ltac distinct_keys H :=
  unfold flag_keys in H;
  repeat (apply NoDup_cons in H as [? H]);
  repeat match goal with
         | Hn : _ ∉ _ |- _ =>
             first [apply not_elem_of_cons in Hn as [? Hn] | clear Hn]
         end.

Section TraceFacts.

Lemma calls_app (t1 t2 : trace) : calls (t1 ++ t2) = calls t1 ++ calls t2.
Proof. apply omap_app. Qed.

Lemma succeeded_app (t1 t2 : trace) :
  succeeded (t1 ++ t2) = succeeded t1 ++ succeeded t2.
Proof. apply omap_app. Qed.

Lemma created_app (t1 t2 : trace) : created (t1 ++ t2) = created t1 ++ created t2.
Proof. unfold created. rewrite calls_app. apply omap_app. Qed.

Lemma written_app (t1 t2 : trace) : written (t1 ++ t2) = written t1 ++ written t2.
Proof. unfold written. rewrite succeeded_app. apply omap_app. Qed.

Lemma mkdirall_modes_app (t1 t2 : trace) :
  mkdirall_modes (t1 ++ t2) = mkdirall_modes t1 ++ mkdirall_modes t2.
Proof. unfold mkdirall_modes. rewrite calls_app. apply omap_app. Qed.

Lemma mkdir_modes_app (t1 t2 : trace) :
  mkdir_modes (t1 ++ t2) = mkdir_modes t1 ++ mkdir_modes t2.
Proof. unfold mkdir_modes. rewrite calls_app. apply omap_app. Qed.

Lemma confined_nil (paths : list string) : confined paths [].
Proof. repeat split; [constructor|]. intros p Hp. by apply elem_of_nil in Hp. Qed.

Lemma confined_app (paths : list string) (evs1 evs2 : trace) :
  confined paths evs1 -> confined paths evs2 -> confined paths (evs1 ++ evs2).
Proof.
  intros (Hm1 & Hd1 & Hc1) (Hm2 & Hd2 & Hc2). repeat split.
  - rewrite mkdirall_modes_app. by apply Forall_app.
  - by rewrite mkdir_modes_app, Hd1, Hd2.
  - intros p. rewrite created_app, elem_of_app. intros [?|?]; auto.
Qed.

Lemma confined_weaken (paths paths' : list string) (evs : trace) :
  (forall p, p ∈ paths -> p ∈ paths') -> confined paths evs -> confined paths' evs.
Proof. intros Hsub (Hm & Hd & Hc). repeat split; auto. Qed.

Lemma confined_mkdirall (paths : list string) (dir : string) (err : option error) :
  confined paths [Called (MkdirAll dir mode_0o750) err].
Proof.
  repeat split.
  - by repeat constructor.
  - intros p Hp. by apply elem_of_nil in Hp.
Qed.

Lemma performed_app_l (lib : Library) (path : string) (contents : list Byte.byte)
    (evs1 evs2 : trace) :
  performed lib path contents evs1 -> performed lib path contents (evs1 ++ evs2).
Proof.
  intros (Hd & Hc & Hw). unfold performed.
  rewrite succeeded_app, written_app, !elem_of_app. auto.
Qed.

Lemma performed_app_r (lib : Library) (path : string) (contents : list Byte.byte)
    (evs1 evs2 : trace) :
  performed lib path contents evs2 -> performed lib path contents (evs1 ++ evs2).
Proof.
  intros (Hd & Hc & Hw). unfold performed.
  rewrite succeeded_app, written_app, !elem_of_app. auto.
Qed.

End TraceFacts.

Section ProvisioningFacts.

Variable range : forall V : Type, gmap string V -> list (string * V).
Variable lib : Library.
Variable c : Constants.

Lemma syscall_run (k : call) (t : trace) :
  syscall lib k t =
    match os_fails lib t k with
    | None => (Ok tt, t ++ [Called k None])
    | Some err => (Err err, t ++ [Called k (Some err)])
    end.
Proof. reflexivity. Qed.

Lemma createFileAndWrite_run (path : string) (contents : list Byte.byte) (t : trace) :
  exists evs,
    (createFileAndWrite lib path contents t).2 = t ++ evs /\
    confined [path] evs /\
    (forall u, (createFileAndWrite lib path contents t).1 = Ok u ->
       performed lib path contents evs).
Proof.
  unfold createFileAndWrite, bind. rewrite syscall_run.
  destruct (os_fails lib t _) as [e1|] eqn:H1; simpl.
  { eexists. split; [reflexivity|]. split; [apply confined_mkdirall|done]. }
  rewrite syscall_run.
  destruct (os_fails lib (t ++ _) (Create path)) as [e2|] eqn:H2; simpl.
  { exists [Called (MkdirAll (filepath_Dir lib path) mode_0o750) None;
            Called (Create path) (Some e2)].
    split; [by rewrite <- app_assoc|]. split; [|done].
    split; [by repeat constructor|]. split; [done|]. intros p Hp. exact Hp. }
  rewrite syscall_run.
  destruct (os_fails lib _ (Write path contents)) as [e3|] eqn:H3; simpl;
    rewrite syscall_run;
    destruct (os_fails lib _ (Close path)) as [e4|] eqn:H4; simpl.
  all: match goal with
       | |- context [Called (Write _ _) ?w :: nil] =>
         match goal with
         | |- context [Called (Close _) ?k :: nil] =>
           exists [Called (MkdirAll (filepath_Dir lib path) mode_0o750) None;
                   Called (Create path) None; Called (Write path contents) w;
                   Called (Close path) k]
         end
       end.
  all: split; [by rewrite <- !app_assoc|].
  all: split; [split; [by repeat constructor|]; split; [done|]; intros p Hp; exact Hp|].
  all: try done.
  all: intros _ _; repeat split; simpl; repeat constructor.
Qed.

Lemma write_files_run (files : list file) (flags : gmap string string) (t : trace) :
  exists evs,
    (write_files lib files flags t).2 = t ++ evs /\
    confined (path <$> files) evs /\
    (forall flags', (write_files lib files flags t).1 = Ok flags' ->
       flags' = flags_after files flags /\
       forall f, f ∈ files -> performed lib (path f) (contents f) evs).
Proof.
  revert flags t. induction files as [|f rest IH]; intros flags t; simpl.
  - exists []. split; [by rewrite app_nil_r|]. split; [apply confined_nil|].
    intros flags' [= <-]. split; [done|]. intros f Hf. by apply elem_of_nil in Hf.
  - unfold bind, wrapping.
    destruct (createFileAndWrite_run (path f) (contents f) t) as (evs1 & E1 & C1 & P1).
    destruct (createFileAndWrite lib (path f) (contents f) t) as [[u|e] t1]; simpl in *.
    + subst t1.
      destruct (IH (<[pathKey f := flagValue f]> flags) (t ++ evs1))
        as (evs2 & E2 & C2 & P2).
      exists (evs1 ++ evs2). split; [by rewrite E2, app_assoc|]. split.
      * apply confined_app.
        -- eapply confined_weaken; [|exact C1]. in_head.
        -- eapply confined_weaken; [|exact C2]. in_tail.
      * intros flags' Hok. destruct (P2 flags' Hok) as [-> Hall].
        split; [done|]. intros g Hg. apply elem_of_cons in Hg as [->|Hg].
        -- apply performed_app_l. by eapply P1.
        -- apply performed_app_r. by apply Hall.
    + exists evs1. split; [done|]. split; [|done].
      eapply confined_weaken; [|exact C1]. in_head.
Qed.

Lemma write_overrides_run (pathOf : string -> string)
    (entries : list (string * string)) (t : trace) :
  exists evs,
    (write_overrides lib pathOf entries t).2 = t ++ evs /\
    confined (pathOf <$> entries.*1) evs.
Proof.
  revert t. induction entries as [|[key text] rest IH]; intros t; simpl.
  - exists []. split; [by rewrite app_nil_r|apply confined_nil].
  - unfold bind, wrapping.
    destruct (createFileAndWrite_run (pathOf key) (String.list_byte_of_string text) t)
      as (evs1 & E1 & C1 & _).
    destruct (createFileAndWrite lib (pathOf key) _ t) as [[u|e] t1]; simpl in *.
    + subst t1. destruct (IH (t ++ evs1)) as (evs2 & E2 & C2).
      exists (evs1 ++ evs2). split; [by rewrite E2, app_assoc|].
      apply confined_app.
      * eapply confined_weaken; [|exact C1]. in_head.
      * eapply confined_weaken; [|exact C2]. in_tail.
    + exists evs1. split; [done|].
      eapply confined_weaken; [|exact C1]. in_head.
Qed.

Lemma files_of_paths (networkID : Z) (genesis : list Byte.byte) (nodeRootDir : string)
    (nodeConfig : Config) (decoded : list Byte.byte) :
  path <$> files_of lib c networkID genesis nodeRootDir nodeConfig decoded =
    node_paths lib c networkID nodeRootDir nodeConfig.
Proof.
  unfold files_of, node_paths, staking_paths.
  destruct (negb (networkID =? LocalID c));
    destruct (negb (Nat.eqb (String.length (ConfigFile nodeConfig)) 0)); reflexivity.
Qed.

Lemma subset_app_l (l1 l2 : list string) : forall p, p ∈ l1 -> p ∈ l1 ++ l2.
Proof. intros p Hp. apply elem_of_app. by left. Qed.

Lemma subset_app_r (l1 l2 : list string) : forall p, p ∈ l2 -> p ∈ l1 ++ l2.
Proof. intros p Hp. apply elem_of_app. by right. Qed.

(** What a run of [writeFiles] does and, when it succeeds, returns. *)
Lemma writeFiles_run (networkID : Z) (genesis : list Byte.byte) (nodeRootDir : string)
    (nodeConfig : Config) (t : trace) :
  exists evs,
    (writeFiles range lib c networkID genesis nodeRootDir nodeConfig t).2 = t ++ evs /\
    confined (node_paths lib c networkID nodeRootDir nodeConfig
              ++ override_paths range lib c nodeRootDir nodeConfig) evs /\
    (forall flags,
       (writeFiles range lib c networkID genesis nodeRootDir nodeConfig t).1 = Ok flags ->
       exists decoded,
         base64_DecodeString lib (StakingSigningKey nodeConfig) = Ok decoded /\
         flags =
           <[SubnetConfigDirKey c := filepath_Join lib [nodeRootDir; subnetConfigSubDir c]]>
             (<[ChainConfigDirKey c := filepath_Join lib [nodeRootDir; chainConfigSubDir c]]>
                (flags_after
                   (files_of lib c networkID genesis nodeRootDir nodeConfig decoded) ∅)) /\
         forall f, f ∈ files_of lib c networkID genesis nodeRootDir nodeConfig decoded ->
           performed lib (path f) (contents f) evs).
Proof.
  unfold writeFiles, bind, lift.
  destruct (base64_DecodeString lib (StakingSigningKey nodeConfig)) as [decoded|e0].
  2:{ exists []. split; [by rewrite app_nil_r|]. split; [apply confined_nil|done]. }
  set (files := files_of lib c networkID genesis nodeRootDir nodeConfig decoded).
  destruct (write_files_run files ∅ t) as (evs1 & E1 & C1 & P1).
  apply (confined_weaken _ (node_paths lib c networkID nodeRootDir nodeConfig
                            ++ override_paths range lib c nodeRootDir nodeConfig)) in C1.
  2:{ unfold files. rewrite files_of_paths. apply subset_app_l. }
  destruct (write_files lib files ∅ t) as [[flags1|e1] t1]; simpl in E1; subst t1.
  2:{ exists evs1. done. }
  destruct (P1 flags1 eq_refl) as [-> Hperf]. clear P1.
  rewrite syscall_run. destruct (os_fails lib (t ++ evs1) _) as [e2|].
  { eexists. split; [by rewrite <- app_assoc|]. split; [|done].
    apply confined_app; [done|apply confined_mkdirall]. }
  rewrite syscall_run. destruct (os_fails lib ((t ++ evs1) ++ _) _) as [e3|].
  { eexists. split; [by rewrite <- !app_assoc|]. split; [|done].
    repeat apply confined_app; [done|apply confined_mkdirall..]. }
  match goal with
  | |- context [write_overrides lib ?f ?l ?t0] =>
      destruct (write_overrides_run f l t0) as (evs2 & E2 & C2);
      destruct (write_overrides lib f l t0) as [[u2|e4] t2]; simpl in E2; subst t2
  end.
  2:{ eexists. split; [by rewrite <- !app_assoc|]. split; [|done].
      repeat apply confined_app; [done|apply confined_mkdirall..|].
      eapply confined_weaken; [|exact C2].
      intros p Hp. apply subset_app_r. unfold override_paths. by apply subset_app_l. }
  match goal with
  | |- context [write_overrides lib ?f ?l ?t0] =>
      destruct (write_overrides_run f l t0) as (evs3 & E3 & C3);
      destruct (write_overrides lib f l t0) as [[u3|e5] t3]; simpl in E3; subst t3
  end.
  2:{ eexists. split; [by rewrite <- !app_assoc|]. split; [|done].
      repeat apply confined_app; [done|apply confined_mkdirall..| |].
      - eapply confined_weaken; [|exact C2].
        intros p Hp. apply subset_app_r. unfold override_paths. by apply subset_app_l.
      - eapply confined_weaken; [|exact C3].
        intros p Hp. apply subset_app_r. unfold override_paths.
        apply subset_app_r. by apply subset_app_l. }
  match goal with
  | |- context [write_overrides lib ?f ?l ?t0] =>
      destruct (write_overrides_run f l t0) as (evs4 & E4 & C4);
      destruct (write_overrides lib f l t0) as [[u4|e6] t4]; simpl in E4; subst t4
  end.
  all: eexists; (split; [by rewrite <- !app_assoc|]); split.
  1,3: repeat apply confined_app; [done|apply confined_mkdirall..| | |].
  1,4: eapply confined_weaken; [|exact C2];
       intros p Hp; apply subset_app_r; unfold override_paths; by apply subset_app_l.
  1,3: eapply confined_weaken; [|exact C3];
       intros p Hp; apply subset_app_r; unfold override_paths;
       apply subset_app_r; by apply subset_app_l.
  1,2: eapply confined_weaken; [|exact C4];
       intros p Hp; apply subset_app_r; unfold override_paths;
       apply subset_app_r; by apply subset_app_r.
  2: done.
  intros flags [= <-]. exists decoded. split; [done|]. split; [done|].
  intros f Hf. apply performed_app_l. by apply Hperf.
Qed.

(** [makeNodeDir] asks for one directory, the node's, with [Mkdir] and
    mode 0o755; it fails only on an error that is not "exists". *)
Lemma makeNodeDir_run (rootDir nodeName : string) (t : trace) :
  exists evs,
    (makeNodeDir lib rootDir nodeName t).2 = t ++ evs /\
    calls evs = [Mkdir (getNodeDir lib rootDir nodeName) mode_0o755].
Proof.
  unfold makeNodeDir, bind, warn, ret.
  destruct (String.eqb rootDir ""); simpl; rewrite syscall_run;
    destruct (os_fails lib _ _) as [err|]; simpl;
    try destruct (os_IsExist lib err); simpl;
    eexists; (split; [by rewrite <- ?app_assoc|]); reflexivity.
Qed.

(** Where no call fails, provisioning goes through. *)
Section NoFailure.

Hypothesis no_failure : forall t k, os_fails lib t k = None.

Lemma createFileAndWrite_succeeds (path : string) (contents : list Byte.byte)
    (t : trace) :
  (createFileAndWrite lib path contents t).1 = Ok tt.
Proof.
  unfold createFileAndWrite, bind.
  rewrite syscall_run, no_failure. simpl.
  rewrite syscall_run, no_failure. simpl.
  rewrite syscall_run, no_failure. simpl.
  by rewrite syscall_run, no_failure.
Qed.

Lemma write_files_succeeds (files : list file) (flags : gmap string string)
    (t : trace) :
  is_Ok (write_files lib files flags t).1 = true.
Proof.
  revert flags t. induction files as [|f rest IH]; intros flags t; simpl; [done|].
  unfold bind, wrapping.
  pose proof (createFileAndWrite_succeeds (path f) (contents f) t) as Hok.
  destruct (createFileAndWrite lib (path f) (contents f) t) as [r t1].
  simpl in Hok. subst r. apply IH.
Qed.

Lemma write_overrides_succeeds (pathOf : string -> string)
    (entries : list (string * string)) (t : trace) :
  (write_overrides lib pathOf entries t).1 = Ok tt.
Proof.
  revert t. induction entries as [|[key text] rest IH]; intros t; simpl; [done|].
  unfold bind, wrapping.
  pose proof (createFileAndWrite_succeeds (pathOf key)
                (String.list_byte_of_string text) t) as Hok.
  destruct (createFileAndWrite lib (pathOf key) _ t) as [r t1].
  simpl in Hok. subst r. apply IH.
Qed.

Lemma writeFiles_succeeds (networkID : Z) (genesis : list Byte.byte)
    (nodeRootDir : string) (nodeConfig : Config) (t : trace)
    (decoded : list Byte.byte) :
  base64_DecodeString lib (StakingSigningKey nodeConfig) = Ok decoded ->
  is_Ok (writeFiles range lib c networkID genesis nodeRootDir nodeConfig t).1 = true.
Proof.
  intros Hdec. unfold writeFiles, bind, lift. rewrite Hdec.
  match goal with
  | |- context [write_files lib ?fs ?fl ?t0] =>
      pose proof (write_files_succeeds fs fl t0) as Hok;
      destruct (write_files lib fs fl t0) as [[flags1|e1] t1]; [clear Hok|done]
  end.
  rewrite syscall_run, no_failure. rewrite syscall_run, no_failure.
  repeat match goal with
  | |- context [write_overrides lib ?f ?l ?t0] =>
      pose proof (write_overrides_succeeds f l t0) as Hok;
      destruct (write_overrides lib f l t0) as [r ?]; simpl in Hok; subst r
  end.
  done.
Qed.

End NoFailure.

Lemma length_zero_eqb (text : string) :
  Nat.eqb (String.length text) 0 = String.eqb text "".
Proof. by destruct text. Qed.

Lemma empty_text_eqb (text : string) : text = "" <-> String.eqb text "" = true.
Proof. symmetry. apply String.eqb_eq. Qed.

(** The flag map a successful run returns, at the genesis key and at the
    config-file key. *)
Lemma returned_flags_lookup (networkID : Z) (genesis : list Byte.byte)
    (nodeRootDir : string) (nodeConfig : Config) (decoded : list Byte.byte)
    (chainDir subnetDir : string) :
  NoDup (flag_keys c) ->
  let flags :=
    <[SubnetConfigDirKey c := subnetDir]>
      (<[ChainConfigDirKey c := chainDir]>
         (flags_after (files_of lib c networkID genesis nodeRootDir nodeConfig decoded) ∅)) in
  flags !! GenesisFileKey c =
    (if networkID =? LocalID c then None
     else Some (filepath_Join lib [nodeRootDir; genesisFileName c])) /\
  flags !! ConfigFileKey c =
    (if String.eqb (ConfigFile nodeConfig) "" then None
     else Some (filepath_Join lib [nodeRootDir; configFileName c])).
Proof.
  intros Hnd flags. subst flags. distinct_keys Hnd.
  unfold files_of, flags_after. rewrite length_zero_eqb.
  destruct (networkID =? LocalID c); destruct (String.eqb (ConfigFile nodeConfig) "");
    simpl; split;
    repeat first [ rewrite lookup_insert_eq | rewrite lookup_insert_ne by done ];
    by rewrite ?lookup_empty.
Qed.

(** C6: a run of [writeFiles] succeeds wherever the signing key decodes
    and no call fails; off the local network a run that succeeds has
    created the genesis file under the node root, given it the genesis
    bytes, and returns its path under the genesis key; on the local
    network the returned map has no genesis key and every file created
    is a credential file, the config file or an override file. *)
Theorem writeFiles_genesis (networkID : Z) (genesis : list Byte.byte)
    (nodeRootDir : string) (nodeConfig : Config) (t : trace) :
  NoDup (flag_keys c) ->
  let run := writeFiles range lib c networkID genesis nodeRootDir nodeConfig t in
  let genesisPath := filepath_Join lib [nodeRootDir; genesisFileName c] in
  exists evs,
    run.2 = t ++ evs /\
    (forall decoded,
       base64_DecodeString lib (StakingSigningKey nodeConfig) = Ok decoded ->
       (forall t' k, os_fails lib t' k = None) ->
       exists flags, run.1 = Ok flags) /\
    (networkID <> LocalID c ->
       forall flags, run.1 = Ok flags ->
         flags !! GenesisFileKey c = Some genesisPath /\
         performed lib genesisPath genesis evs) /\
    (networkID = LocalID c ->
       (forall flags, run.1 = Ok flags -> flags !! GenesisFileKey c = None) /\
       (forall p, p ∈ created evs ->
          p ∈ staking_paths lib c nodeRootDir \/
          (ConfigFile nodeConfig <> "" /\
           p = filepath_Join lib [nodeRootDir; configFileName c]) \/
          p ∈ override_paths range lib c nodeRootDir nodeConfig)).
Proof.
  intros Hnd run genesisPath. subst run genesisPath.
  destruct (writeFiles_run networkID genesis nodeRootDir nodeConfig t)
    as (evs & E & (_ & _ & Hcreated) & Hok).
  exists evs. split; [done|]. split.
  { intros decoded Hdec Hnone.
    pose proof (writeFiles_succeeds Hnone networkID genesis nodeRootDir nodeConfig t
                  decoded Hdec) as Hsucc.
    destruct (writeFiles range lib c networkID genesis nodeRootDir nodeConfig t).1
      as [flags|e]; [by exists flags|discriminate Hsucc]. }
  split.
  - intros Hne flags Hflags.
    destruct (Hok flags Hflags) as (decoded & Hdec & -> & Hperf).
    apply Z.eqb_neq in Hne. split.
    + rewrite (proj1 (returned_flags_lookup networkID genesis nodeRootDir nodeConfig
                        decoded _ _ Hnd)).
      by rewrite Hne.
    + apply (Hperf (node_file lib nodeRootDir (genesisFileName c) (GenesisFileKey c) genesis)).
      unfold files_of. rewrite Hne. simpl.
      destruct (negb _); simpl; rewrite ?elem_of_app, ?elem_of_cons; tauto.
  - intros Heq. split.
    + intros flags Hflags.
      destruct (Hok flags Hflags) as (decoded & Hdec & -> & _).
      rewrite (proj1 (returned_flags_lookup networkID genesis nodeRootDir nodeConfig
                        decoded _ _ Hnd)).
      apply Z.eqb_eq in Heq. by rewrite Heq.
    + intros p Hp. apply Hcreated in Hp. unfold node_paths in Hp.
      rewrite !elem_of_app in Hp.
      apply Z.eqb_eq in Heq. rewrite Heq, length_zero_eqb in Hp. simpl in Hp.
      destruct (String.eqb (ConfigFile nodeConfig) "") eqn:Htext; simpl in Hp.
      * rewrite !elem_of_nil in Hp. tauto.
      * rewrite elem_of_nil, list_elem_of_singleton in Hp.
        apply String.eqb_neq in Htext. tauto.
Qed.

(** C7: a run of [writeFiles] succeeds wherever the signing key decodes
    and no call fails; with an empty config-file text the map a run
    returns has no config-file key and every file created is a credential
    file, the genesis file or an override file; with a text, a run that
    succeeds has created the config file under the node root, given it
    the text, and returns its path under the config-file key. *)
Theorem writeFiles_config_file (networkID : Z) (genesis : list Byte.byte)
    (nodeRootDir : string) (nodeConfig : Config) (t : trace) :
  NoDup (flag_keys c) ->
  let run := writeFiles range lib c networkID genesis nodeRootDir nodeConfig t in
  let configPath := filepath_Join lib [nodeRootDir; configFileName c] in
  exists evs,
    run.2 = t ++ evs /\
    (forall decoded,
       base64_DecodeString lib (StakingSigningKey nodeConfig) = Ok decoded ->
       (forall t' k, os_fails lib t' k = None) ->
       exists flags, run.1 = Ok flags) /\
    (ConfigFile nodeConfig = "" ->
       (forall flags, run.1 = Ok flags -> flags !! ConfigFileKey c = None) /\
       (forall p, p ∈ created evs ->
          p ∈ staking_paths lib c nodeRootDir \/
          (networkID <> LocalID c /\
           p = filepath_Join lib [nodeRootDir; genesisFileName c]) \/
          p ∈ override_paths range lib c nodeRootDir nodeConfig)) /\
    (ConfigFile nodeConfig <> "" ->
       forall flags, run.1 = Ok flags ->
         flags !! ConfigFileKey c = Some configPath /\
         performed lib configPath
           (String.list_byte_of_string (ConfigFile nodeConfig)) evs).
Proof.
  intros Hnd run configPath. subst run configPath.
  destruct (writeFiles_run networkID genesis nodeRootDir nodeConfig t)
    as (evs & E & (_ & _ & Hcreated) & Hok).
  exists evs. split; [done|]. split.
  { intros decoded Hdec Hnone.
    pose proof (writeFiles_succeeds Hnone networkID genesis nodeRootDir nodeConfig t
                  decoded Hdec) as Hsucc.
    destruct (writeFiles range lib c networkID genesis nodeRootDir nodeConfig t).1
      as [flags|e]; [by exists flags|discriminate Hsucc]. }
  split.
  - intros Hempty. apply empty_text_eqb in Hempty. split.
    + intros flags Hflags.
      destruct (Hok flags Hflags) as (decoded & Hdec & -> & _).
      rewrite (proj2 (returned_flags_lookup networkID genesis nodeRootDir nodeConfig
                        decoded _ _ Hnd)).
      by rewrite Hempty.
    + intros p Hp. apply Hcreated in Hp. unfold node_paths in Hp.
      rewrite !elem_of_app in Hp.
      rewrite length_zero_eqb, Hempty in Hp. simpl in Hp.
      destruct (networkID =? LocalID c) eqn:Hnet; simpl in Hp.
      * rewrite !elem_of_nil in Hp. tauto.
      * rewrite elem_of_nil, list_elem_of_singleton in Hp.
        apply Z.eqb_neq in Hnet. tauto.
  - intros Htext flags Hflags. apply String.eqb_neq in Htext.
    destruct (Hok flags Hflags) as (decoded & Hdec & -> & Hperf). split.
    + rewrite (proj2 (returned_flags_lookup networkID genesis nodeRootDir nodeConfig
                        decoded _ _ Hnd)).
      by rewrite Htext.
    + apply (Hperf (node_file lib nodeRootDir (configFileName c) (ConfigFileKey c)
                      (String.list_byte_of_string (ConfigFile nodeConfig)))).
      unfold files_of. rewrite length_zero_eqb, Htext. simpl.
      destruct (negb _); simpl; rewrite ?elem_of_app, ?elem_of_cons; tauto.
Qed.

(** C8, as the code has it: every directory [writeFiles] asks for is asked
    for with [MkdirAll] and mode 0o750, which lets the owner read, write
    and search, the group read and search, and nobody else do anything;
    [makeNodeDir] asks for the node root alone, with [Mkdir] and mode
    0o755, which lets the owner read, write and search, and the group and
    everybody else read and search. *)
Theorem provisioning_directory_modes (networkID : Z) (genesis : list Byte.byte)
    (nodeRootDir : string) (nodeConfig : Config) (rootDir nodeName : string)
    (t : trace) :
  (exists evs,
     (writeFiles range lib c networkID genesis nodeRootDir nodeConfig t).2 = t ++ evs /\
     Forall (fun perm => perm = mode_0o750) (mkdirall_modes evs) /\
     mkdir_modes evs = []) /\
  (exists evs,
     (makeNodeDir lib rootDir nodeName t).2 = t ++ evs /\
     calls evs = [Mkdir (getNodeDir lib rootDir nodeName) mode_0o755] /\
     mkdir_modes evs = [mode_0o755] /\
     mkdirall_modes evs = []) /\
  (owner_rwx mode_0o750 = true /\ group_rx_only mode_0o750 = true /\
   group_rwx mode_0o750 = false /\ world_none mode_0o750 = true) /\
  (owner_rwx mode_0o755 = true /\ group_rx_only mode_0o755 = true /\
   world_rx_only mode_0o755 = true /\ owner_only mode_0o755 = false).
Proof.
  split; [|split; [|by split]].
  - destruct (writeFiles_run networkID genesis nodeRootDir nodeConfig t)
      as (evs & E & (Hm & Hd & _) & _).
    by exists evs.
  - destruct (makeNodeDir_run rootDir nodeName t) as (evs & E & Hcalls).
    exists evs. unfold mkdir_modes, mkdirall_modes. by rewrite Hcalls.
Qed.

End ProvisioningFacts.

(** ** The properties at the sample inputs *)

Lemma addNetworkFlags_merge_witness :
  sample_range value sample_network_flags ≡ₚ map_to_list sample_network_flags /\
  exists B' : gmap string value,
    addNetworkFlags sample_range (Some sample_network_flags) (Some sample_node_flags)
      = Done (Some B') /\
    (forall k v, sample_node_flags !! k = Some v -> B' !! k = Some v) /\
    (forall k, sample_node_flags !! k = None -> B' !! k = sample_network_flags !! k).
Proof.
  split; [reflexivity|].
  apply (addNetworkFlags_merge sample_range sample_network_flags sample_node_flags).
  reflexivity.
Defined.


(** C5: at an int under the queried key, the error of [getConfigEntry] names
    the key and the type string, not int; the error of [GetFlag] at the
    same flag map names the key and int. *)
Theorem getConfigEntry_names_string_not_int :
  let flags : gomap value := Some {[ "http-port" := VInt 9650 ]} in
  let node := sample_node "" (Err connection_refused) in
  getConfigEntry flags None "http-port" "" =
    Err (Errorf "expected node config flag %q to be string but got %T"
           [VString "http-port"; VString ""]) /\
  fmt_T (VString "") = "string" /\
  fmt_T (VInt 9650) = "int" /\
  names_key_and_type
    (Errorf "expected node config flag %q to be string but got %T"
       [VString "http-port"; VString ""]) "http-port" (VInt 9650) = false /\
  index (Flags (config node)) "http-port" = Some (VInt 9650) /\
  GetFlag sample_Unmarshal node "http-port" =
    Err (Errorf "unexpected type for %q expected string got %T"
           [VString "http-port"; VInt 9650]) /\
  names_key_and_type
    (Errorf "unexpected type for %q expected string got %T"
       [VString "http-port"; VInt 9650]) "http-port" (VInt 9650) = true.
Proof. repeat split; vm_compute; reflexivity. Qed.

Lemma AttachPeer_registry_witness :
  (AttachPeer sample_attachment (sample_node "" (Err connection_refused)) tt tt).1
    = Done (Err connection_refused) /\
  (AttachPeer sample_attachment (sample_node "" (Err connection_refused)) tt tt).2
    = sample_node "" (Err connection_refused).
Proof.
  split; [reflexivity|].
  apply (proj1 (AttachPeer_registry sample_attachment
                  (sample_node "" (Err connection_refused)) tt tt) connection_refused).
  reflexivity.
Defined.

(** A call in which every stage answers registers the peer. *)
Example AttachPeer_sample_success :
  let run := AttachPeer sample_attachment (sample_node "" (Ok tt)) tt tt in
  run.1 = Done (Ok tt) /\
  attachedPeers run.2 = Some {[ "NodeID-sample" := tt ]}.
Proof. split; reflexivity. Qed.

Lemma SendOutboundMessage_lookup_witness :
  SendOutboundMessage sample_messaging (sample_node "" (Ok tt)) tt "NodeID-sample" [] 7
    = (false, Some (Errorf "peer with ID %s is not attached here" [VString "NodeID-sample"])) /\
  SendOutboundMessage sample_messaging
    (AttachPeer sample_attachment (sample_node "" (Ok tt)) tt tt).2 tt "NodeID-sample" [] 7
    = (true, None).
Proof.
  split.
  - apply (proj1 (SendOutboundMessage_lookup sample_messaging (sample_node "" (Ok tt))
                    tt "NodeID-sample" [] 7)).
    reflexivity.
  - apply (proj2 (SendOutboundMessage_lookup sample_messaging
                    (AttachPeer sample_attachment (sample_node "" (Ok tt)) tt tt).2
                    tt "NodeID-sample" [] 7) tt).
    reflexivity.
Defined.

(** The flag map holds a string under the key; the config-file text does
    not name the key; the answer is the empty string. *)
Lemma GetFlag_single_source_witness :
  index (Flags (config (sample_node "{}" (Ok tt)))) "log-level" = Some (VString "debug") /\
  GetFlag sample_Unmarshal (sample_node "{}" (Ok tt)) "log-level" = Ok "" /\
  GetFlag sample_Unmarshal (sample_node "" (Ok tt)) "db-dir" = Ok "".
Proof.
  split; [reflexivity|]. split.
  - apply (proj2 (proj1 (GetFlag_single_source sample_Unmarshal
                           (sample_node "{}" (Ok tt)) "log-level")
                    ltac:(discriminate)) (Some ∅)); reflexivity.
  - apply (proj2 (GetFlag_single_source sample_Unmarshal
                    (sample_node "" (Ok tt)) "db-dir")); reflexivity.
Defined.

Lemma sample_keys_distinct : NoDup (flag_keys sample_constants).
Proof. apply (bool_decide_unpack _). vm_compute. exact I. Defined.

(** The sample runs go through. *)
Example writeFiles_sample_succeeds :
  is_Ok (writeFiles sample_range sample_lib sample_constants 1337 [Byte.x7b; Byte.x7d]
           "/tmp/net/node1" (sample_config "{}") []).1 = true /\
  is_Ok (writeFiles sample_range sample_lib sample_constants 12345 [Byte.x7b; Byte.x7d]
           "/tmp/net/node1" (sample_config "") []).1 = true.
Proof.
  split; apply (writeFiles_succeeds sample_range sample_lib sample_constants
                  (fun _ _ => eq_refl) _ _ _ _ _ [Byte.x01; Byte.x02; Byte.x03]);
    reflexivity.
Qed.

Lemma sample_lib_never_fails : forall (t : trace) (k : call), os_fails sample_lib t k = None.
Proof. intros t k. reflexivity. Defined.

(** Off the local network the sample run returns the genesis path under
    the genesis key and has written the genesis bytes there; on the local
    network the sample run returns a map without the genesis key. *)
Lemma writeFiles_genesis_witness :
  NoDup (flag_keys sample_constants) /\
  (let run := writeFiles sample_range sample_lib sample_constants 1337 [Byte.x7b; Byte.x7d]
                "/tmp/net/node1" (sample_config "{}") [] in
   exists flags evs,
     run.1 = Ok flags /\
     run.2 = [] ++ evs /\
     flags !! "genesis-file" = Some "/tmp/net/node1/genesis.json" /\
     performed sample_lib "/tmp/net/node1/genesis.json" [Byte.x7b; Byte.x7d] evs) /\
  (let run := writeFiles sample_range sample_lib sample_constants 12345 [Byte.x7b; Byte.x7d]
                "/tmp/net/node1" (sample_config "{}") [] in
   exists flags, run.1 = Ok flags /\ flags !! "genesis-file" = None).
Proof.
  split; [exact sample_keys_distinct|]. split.
  - destruct (writeFiles_genesis sample_range sample_lib sample_constants 1337
                [Byte.x7b; Byte.x7d] "/tmp/net/node1" (sample_config "{}") []
                sample_keys_distinct) as (evs & E & Hruns & Hwritten & _).
    destruct (Hruns [Byte.x01; Byte.x02; Byte.x03] ltac:(reflexivity)
                sample_lib_never_fails) as [flags Hflags].
    exists flags, evs. split; [exact Hflags|]. split; [exact E|].
    apply Hwritten; [discriminate|exact Hflags].
  - destruct (writeFiles_genesis sample_range sample_lib sample_constants 12345
                [Byte.x7b; Byte.x7d] "/tmp/net/node1" (sample_config "{}") []
                sample_keys_distinct) as (evs & E & Hruns & _ & Hlocal).
    destruct (Hruns [Byte.x01; Byte.x02; Byte.x03] ltac:(reflexivity)
                sample_lib_never_fails) as [flags Hflags].
    exists flags. split; [exact Hflags|].
    apply (proj1 (Hlocal ltac:(reflexivity))). exact Hflags.
Defined.

(** Without a text the sample run returns a map without the config-file
    key; with a text it returns the path of the config file under that key
    and has written the text there. *)
Lemma writeFiles_config_file_witness :
  NoDup (flag_keys sample_constants) /\
  (let run := writeFiles sample_range sample_lib sample_constants 12345 [Byte.x7b; Byte.x7d]
                "/tmp/net/node1" (sample_config "") [] in
   exists flags, run.1 = Ok flags /\ flags !! "config-file" = None) /\
  (let run := writeFiles sample_range sample_lib sample_constants 12345 [Byte.x7b; Byte.x7d]
                "/tmp/net/node1" (sample_config "{}") [] in
   exists flags evs,
     run.1 = Ok flags /\
     run.2 = [] ++ evs /\
     flags !! "config-file" = Some "/tmp/net/node1/config.json" /\
     performed sample_lib "/tmp/net/node1/config.json" [Byte.x7b; Byte.x7d] evs).
Proof.
  split; [exact sample_keys_distinct|]. split.
  - destruct (writeFiles_config_file sample_range sample_lib sample_constants 12345
                [Byte.x7b; Byte.x7d] "/tmp/net/node1" (sample_config "") []
                sample_keys_distinct) as (evs & E & Hruns & Hempty & _).
    destruct (Hruns [Byte.x01; Byte.x02; Byte.x03] ltac:(reflexivity)
                sample_lib_never_fails) as [flags Hflags].
    exists flags. split; [exact Hflags|].
    apply (proj1 (Hempty ltac:(reflexivity))). exact Hflags.
  - destruct (writeFiles_config_file sample_range sample_lib sample_constants 12345
                [Byte.x7b; Byte.x7d] "/tmp/net/node1" (sample_config "{}") []
                sample_keys_distinct) as (evs & E & Hruns & _ & Htext).
    destruct (Hruns [Byte.x01; Byte.x02; Byte.x03] ltac:(reflexivity)
                sample_lib_never_fails) as [flags Hflags].
    exists flags, evs. split; [exact Hflags|]. split; [exact E|].
    apply Htext; [discriminate|exact Hflags].
Defined.

(** C8 as the specification words it fails on the sample: the node root is
    asked for with a mode that lets the group and everybody else in, and
    the directories of [writeFiles] with a mode that does not let the group
    write. *)
Lemma directory_modes_counterexample :
  modes_owner_only_rwx (makeNodeDir sample_lib "/tmp/net" "node1" []).2 = false /\
  modes_owner_group_rwx
    (writeFiles sample_range sample_lib sample_constants 1337 [Byte.x7b; Byte.x7d]
       "/tmp/net/node1" (sample_config "{}") []).2 = false.
Proof. split; vm_compute; reflexivity. Qed.

(** * Further properties of the package *)

#[local] Set Warnings "-clear-no-such-hyp".

(** ** Flag maps *)

Section MoreFlagFacts.

Variable range : forall V : Type, gmap string V -> list (string * V).
Variable uint16_unrepresentable : spec_float -> Z.

(** X1: a key the node flags hold settles [getConfigEntry] on its own: the
    config file and the default are not looked at, so a value of the wrong
    type in the node flags is an error even when the config file has a
    string for the key. *)
Theorem getConfigEntry_node_flags_shadow (nodeConfigFlags : gomap value)
    (flag : string) (v : value) (configFile1 configFile2 : gomap value)
    (default1 default2 : string) :
  index nodeConfigFlags flag = Some v ->
  getConfigEntry nodeConfigFlags configFile1 flag default1 =
    getConfigEntry nodeConfigFlags configFile2 flag default2 /\
  (is_string v = false ->
   is_Ok (getConfigEntry nodeConfigFlags configFile1 flag default1) = false).
Proof.
  intros Hv. unfold getConfigEntry. rewrite Hv. split; [done|]. by destruct v.
Qed.

(** X2: [getConfigEntry] fails exactly when the first of the two maps that
    holds the key holds something that is not a string; it returns the
    default exactly when neither holds the key, and the string found
    otherwise. *)
Theorem getConfigEntry_outcome (nodeConfigFlags configFile : gomap value)
    (flag defaultVal : string) :
  (is_Ok (getConfigEntry nodeConfigFlags configFile flag defaultVal) = false <->
   exists v, consulted nodeConfigFlags configFile flag = Some v /\ is_string v = false) /\
  (forall s, getConfigEntry nodeConfigFlags configFile flag defaultVal = Ok s <->
     consulted nodeConfigFlags configFile flag = Some (VString s) \/
     (consulted nodeConfigFlags configFile flag = None /\ s = defaultVal)).
Proof.
  unfold getConfigEntry, consulted.
  destruct (index nodeConfigFlags flag) as [v|];
    [|destruct (index configFile flag) as [v|]].
  1,2: destruct v; simpl; (split; [split|intros s0; split]);
       try (intros [w [[= <-] Hw]]; done);
       try (intros _; eexists; split; [reflexivity|done]);
       try (intros [= <-]; by left);
       try (intros [[= <-]|[? ?]]; done); try done.
  split; [split|intros s0; split].
  - done.
  - by intros [w [? ?]].
  - intros [= <-]. by right.
  - intros [?|[_ ->]]; done.
Qed.

(** X3: an int under the key gives a port between 0 and 65535 that differs
    from the int by a multiple of 65536: an int that is a port already
    comes back as it is, and ints 65536 apart give the same port. *)
Theorem getPort_int_wraps (getFreePort : result Z) (flags configFile : gomap value)
    (portKey : string) (n : Z) :
  index flags portKey = Some (VInt n) ->
  exists port,
    getPort uint16_unrepresentable getFreePort flags configFile portKey = Ok port /\
    0 <= port < 65536 /\
    (exists k, n = port + 65536 * k) /\
    (0 <= n < 65536 -> port = n).
Proof.
  intros Hn. exists (n mod 65536). unfold getPort. rewrite Hn.
  split; [by rewrite uint16_of_int_mod|]. split; [apply Z.mod_pos_bound; lia|].
  split.
  - exists (n / 65536). rewrite Z.add_comm. apply Z.div_mod. lia.
  - intros Hr. by apply Z.mod_small.
Qed.

(** X4: a positive float64 under the key, of mantissa [m] and exponent
    [e <= 0], loses its fraction: the port [p] is the integer with
    [p <= m * 2^e < p + 1], as long as that integer is at most 65535. *)
Theorem getPort_float_drops_fraction (getFreePort : result Z)
    (flags configFile : gomap value) (portKey : string) (m : positive) (e : Z) :
  index flags portKey = Some (VFloat64 (S754_finite false m e)) ->
  e <= 0 ->
  Z.pos m < 65536 * 2 ^ (- e) ->
  exists port,
    getPort uint16_unrepresentable getFreePort flags configFile portKey = Ok port /\
    port * 2 ^ (- e) <= Z.pos m < (port + 1) * 2 ^ (- e).
Proof.
  intros Hf He Hm. exists (Z.pos m / 2 ^ (- e)).
  assert (Hpow : 0 < 2 ^ (- e)) by (apply Z.pow_pos_nonneg; lia).
  assert (Htrunc : float64_trunc (S754_finite false m e) = Some (Z.pos m / 2 ^ (- e))).
  { simpl. f_equal. rewrite Z.shiftl_div_pow2 by lia. reflexivity. }
  split.
  - unfold getPort. rewrite Hf. f_equal.
    apply uint16_of_float64_fits; [done|]. unfold fits_uint16.
    apply andb_true_intro. split.
    + apply Z.leb_le. apply Z.div_pos; lia.
    + apply Z.ltb_lt. apply Z.div_lt_upper_bound; lia.
  - pose proof (Z.div_mod (Z.pos m) (2 ^ (- e)) ltac:(lia)) as Hdm.
    pose proof (Z.mod_pos_bound (Z.pos m) (2 ^ (- e)) Hpow) as Hmod.
    nia.
Qed.

(** X5: [getPort] asks for a free port only when neither map holds the key,
    and looks at the config file only when the flags do not hold it. *)
Theorem getPort_precedence (flags : gomap value) (portKey : string)
    (configFile1 configFile2 : gomap value) (free1 free2 : result Z) :
  (is_Some (index flags portKey) ->
   getPort uint16_unrepresentable free1 flags configFile1 portKey =
     getPort uint16_unrepresentable free2 flags configFile2 portKey) /\
  (index flags portKey = None -> is_Some (index configFile1 portKey) ->
   getPort uint16_unrepresentable free1 flags configFile1 portKey =
     getPort uint16_unrepresentable free2 flags configFile1 portKey).
Proof.
  unfold getPort. split.
  - intros [v ->]. done.
  - intros -> [v ->]. done.
Qed.

(** X6: the map [addNetworkFlags] leaves does not depend on the order in
    which the network flags are visited, and its keys are the keys of the
    two maps together. *)
Theorem addNetworkFlags_order_and_keys
    (range2 : forall V : Type, gmap string V -> list (string * V))
    (A B : gmap string value) :
  range value A ≡ₚ map_to_list A ->
  range2 value A ≡ₚ map_to_list A ->
  exists B' : gmap string value,
    addNetworkFlags range (Some A) (Some B) = Done (Some B') /\
    addNetworkFlags range2 (Some A) (Some B) = Done (Some B') /\
    dom B' = dom A ∪ dom B.
Proof.
  intros H1 H2. exists (B ∪ A).
  rewrite !addNetworkFlags_union by done.
  split; [done|]. split; [done|]. rewrite dom_union_L. apply (comm_L (∪)).
Qed.

(** X7: adding the same network flags a second time changes nothing. *)
Theorem addNetworkFlags_idempotent (A B : gmap string value) :
  range value A ≡ₚ map_to_list A ->
  exists B' : gmap string value,
    addNetworkFlags range (Some A) (Some B) = Done (Some B') /\
    addNetworkFlags range (Some A) (Some B') = Done (Some B').
Proof.
  intros H. exists (B ∪ A). rewrite !addNetworkFlags_union by done.
  split; [done|]. do 2 f_equal. apply map_eq. intros k.
  rewrite !lookup_union. by destruct (B !! k), (A !! k).
Qed.

(** X8: adding two sets of network flags one after the other gives, for a
    key the node did not have, the value of the set added first when it
    has the key and of the second one otherwise. *)
Theorem addNetworkFlags_twice (A1 A2 B : gmap string value) :
  range value A1 ≡ₚ map_to_list A1 ->
  range value A2 ≡ₚ map_to_list A2 ->
  exists B1 B2 : gmap string value,
    addNetworkFlags range (Some A1) (Some B) = Done (Some B1) /\
    addNetworkFlags range (Some A2) (Some B1) = Done (Some B2) /\
    forall k, B2 !! k =
      match B !! k with
      | Some v => Some v
      | None => match A1 !! k with Some v => Some v | None => A2 !! k end
      end.
Proof.
  intros H1 H2. exists (B ∪ A1), ((B ∪ A1) ∪ A2).
  rewrite !addNetworkFlags_union by done. split; [done|]. split; [done|].
  intros k. rewrite !lookup_union.
  destruct (B !! k), (A1 !! k), (A2 !! k); done.
Qed.

(** X9: on a nil node map [addNetworkFlags] returns without a change when
    there is no network flag, and panics on the first assignment
    otherwise. *)
Theorem addNetworkFlags_nil_node_panics (A : gmap string value) :
  range value A ≡ₚ map_to_list A ->
  (A = ∅ -> addNetworkFlags range (Some A) None = Done None) /\
  (A <> ∅ ->
   addNetworkFlags range (Some A) None = Panic "assignment to entry in nil map").
Proof.
  intros H. rewrite (addNetworkFlags_nil_node range A H). split; intros HA.
  - by rewrite decide_True.
  - by rewrite decide_False.
Qed.

End MoreFlagFacts.

(** ** The node runtime handle *)

Section MoreNodeFacts.

Context {Peer Conn TLSCert Cert Creator Metrics ResourceTracker : Type}.
Context {InboundHandler Ctx OutboundMessage : Type}.

Abbreviation handle_t := (@localNode Peer Conn Ctx).
Abbreviation libraries_t :=
  (@Attachment Peer Conn TLSCert Cert Creator Metrics ResourceTracker InboundHandler Ctx).

(** A call that returns a peer found the registry allocated and leaves the
    handle with that peer assigned under its identity string. *)
Lemma AttachPeer_returns_peer (lib : libraries_t) (node : handle_t) (ctx : Ctx)
    (router : InboundHandler) (p : Peer) :
  (AttachPeer lib node ctx router).1 = Done (Ok p) ->
  exists peers,
    attachedPeers node = Some peers /\
    (AttachPeer lib node ctx router).2 =
      with_attachedPeers (Some (<[ID_String lib p := p]> peers)) node.
Proof.
  unfold AttachPeer.
  repeat match goal with
         | |- context [match ?x with _ => _ end] => destruct x eqn:?; simpl
         end; try done.
  intros [= <-]. unfold assign in *.
  destruct (attachedPeers node) as [peers|]; [|done]. simplify_eq. eauto.
Qed.

(** X12: [AttachPeer] never takes a peer out of the registry: whatever the
    call returns, every identity that was registered still is. *)
Theorem AttachPeer_never_removes (lib : libraries_t) (node : handle_t) (ctx : Ctx)
    (router : InboundHandler) (id : string) :
  is_Some (index (attachedPeers node) id) ->
  is_Some (index (attachedPeers (AttachPeer lib node ctx router).2) id).
Proof.
  unfold AttachPeer.
  repeat match goal with
         | |- context [match ?x with _ => _ end] => destruct x eqn:?; simpl
         end; try done.
  unfold assign in *. destruct (attachedPeers node) as [peers|]; [|done].
  simplify_eq. simpl. intros [p Hp].
  destruct (decide (ID_String lib
    (peer_Start lib
       {| cfgMetrics := a3; cfgMessageCreator := a1; cfgMessageCreatorWithProto := a2;
          cfgRouter := router; cfgNetworkID := networkID node;
          cfgResourceTracker := a4 |} c c0 a) = id)) as [<-|Hne].
  - rewrite lookup_insert_eq. eauto.
  - rewrite lookup_insert_ne by done. eauto.
Qed.

(** X13: a peer [AttachPeer] returned is the one [SendOutboundMessage]
    finds under the peer's identity string on the handle the call left:
    the message goes to that peer's [Send]. *)
Theorem AttachPeer_then_send (lib : libraries_t)
    (msgs : @Messaging Peer Ctx OutboundMessage) (node : handle_t) (ctx : Ctx)
    (router : InboundHandler) (p : Peer) (content : list Byte.byte) (op : Z) :
  (AttachPeer lib node ctx router).1 = Done (Ok p) ->
  SendOutboundMessage msgs (AttachPeer lib node ctx router).2 ctx
      (ID_String lib p) content op =
    (peer_Send msgs p ctx (message_NewTestMsg msgs (message_Op msgs op) content false),
     None).
Proof.
  intros Hp. unfold SendOutboundMessage.
  destruct (AttachPeer_returns_peer lib node ctx router p Hp) as (peers & _ & ->).
  simpl. by rewrite lookup_insert_eq.
Qed.

(** X14: [AttachPeer] does not check that the registry is allocated: the
    call panics, with the message of an assignment to a nil map, exactly
    when the registry is nil and every stage went through, so a stage that
    fails still returns its error on a nil registry; the handle is then
    what it was, and on a nil registry no call returns a peer. *)
Theorem AttachPeer_nil_registry (lib : libraries_t) (node : handle_t) (ctx : Ctx)
    (router : InboundHandler) :
  (forall msg, (AttachPeer lib node ctx router).1 = Panic msg <->
     attachedPeers node = None /\
     stages_succeed lib node ctx router /\
     msg = "assignment to entry in nil map") /\
  (forall msg, (AttachPeer lib node ctx router).1 = Panic msg ->
     (AttachPeer lib node ctx router).2 = node) /\
  (attachedPeers node = None ->
   forall p, (AttachPeer lib node ctx router).1 <> Done (Ok p)).
Proof.
  split; [|split].
  - intros failure. unfold AttachPeer, stages_succeed.
    repeat match goal with
           | |- context [match ?x with _ => _ end] => destruct x eqn:?; simpl
           end.
    all: unfold assign in *.
    all: split;
      [ intros Hpanic; try discriminate Hpanic
      | intros (Hnil & (tlsCert & conn & mc & mcProto & metrics & resourceTracker
                        & conn' & cert & H1 & H2 & H3 & H4 & H5 & H6 & H7 & H8) & ->);
        simplify_eq; try congruence ].
    all: try (destruct (attachedPeers node) as [peers|]; simplify_eq).
    all: try (rewrite Hnil in *; simplify_eq).
    all: try done.
    split; [done|]. split; [|done]. eexists _, _, _, _, _, _, _, _.
    repeat (split; [reflexivity|]). done.
  - unfold AttachPeer.
    repeat match goal with
           | |- context [match ?x with _ => _ end] => destruct x eqn:?; simpl
           end; done.
  - intros Hnil p Hp.
    destruct (AttachPeer_returns_peer lib node ctx router p Hp) as (peers & Hsome & _).
    congruence.
Qed.

Variable json_Unmarshal : string -> result (gomap value).

(** X15: [GetFlag] returns a string exactly when its source (the parsed
    config-file text when there is a text, the flag map otherwise) holds
    that string under the key, or holds nothing under the key and the
    string is empty; it fails exactly when the text does not parse, with
    the parser's error, or when the source holds under the key a value
    that is not a string, with an error built from the key and the
    value. *)
Theorem GetFlag_outcome (node : handle_t) (k : string) :
  (forall s, GetFlag json_Unmarshal node k = Ok s <->
     exists m, flag_source json_Unmarshal node = Ok m /\
       (index m k = Some (VString s) \/ (index m k = None /\ s = ""))) /\
  (forall e, GetFlag json_Unmarshal node k = Err e <->
     flag_source json_Unmarshal node = Err e \/
     exists m v, flag_source json_Unmarshal node = Ok m /\
       index m k = Some v /\ is_string v = false /\
       e = Errorf "unexpected type for %q expected string got %T" [VString k; v]).
Proof.
  unfold GetFlag, flag_source.
  destruct (String.eqb (ConfigFile (config node)) ""); simpl.
  - destruct (Flags (config node)) as [flags|]; simpl.
    + destruct (flags !! k) as [v|] eqn:Hk; [destruct v|];
        (split; intros x; (split; [intros Hx; simplify_eq|])).
      all: try (intros [Hx|Hx]); try naive_solver.
      all: try (eexists; split; [reflexivity|]; simpl; rewrite Hk; by eauto).
      all: right; eexists _, _; split; [reflexivity|]; simpl; rewrite Hk; by eauto.
    + split; intros x; (split; [intros Hx; simplify_eq|]); try naive_solver.
  - destruct (json_Unmarshal (ConfigFile (config node))) as [m|e0]; simpl.
    + destruct (index m k) as [v|] eqn:Hk; [destruct v|];
        (split; intros x; (split; [intros Hx; simplify_eq|])).
      all: try (intros [Hx|Hx]); try naive_solver.
    + split; intros x; (split; [intros Hx; simplify_eq|]); try naive_solver.
Qed.

(** X16: when both the flag map and the config file hold a string under
    the key, [GetFlag] gives the one of the config file and
    [getConfigEntry], on the same two maps, the one of the flag map. *)
Theorem GetFlag_getConfigEntry_precedence (node : handle_t) (k : string)
    (configFileMap : gomap value) (a b defaultVal : string) :
  ConfigFile (config node) <> "" ->
  json_Unmarshal (ConfigFile (config node)) = Ok configFileMap ->
  index configFileMap k = Some (VString a) ->
  index (Flags (config node)) k = Some (VString b) ->
  GetFlag json_Unmarshal node k = Ok a /\
  getConfigEntry (Flags (config node)) configFileMap k defaultVal = Ok b.
Proof.
  intros Hne Hm Ha Hb. split.
  - unfold GetFlag. rewrite (nonempty_eqb _ Hne). simpl. by rewrite Hm, Ha.
  - unfold getConfigEntry. by rewrite Hb.
Qed.

(** X17: [defaultGetConnFunc] dials the P2P port at one of two hosts:
    0.0.0.0 when the handle's host is 0.0.0.0 or a dot, 127.0.0.1 for any
    other host; the address is the host, a colon and the port in decimal,
    without brackets. *)
Theorem defaultGetConnFunc_address
    (DialContext : Ctx -> string -> string -> result Conn) (NetworkType : string)
    (node : handle_t) (ctx : Ctx) :
  exists host,
    GetURL node = host /\
    (host = "0.0.0.0" \/ host = "127.0.0.1") /\
    (host = "0.0.0.0" <-> httpHost node = "0.0.0.0" \/ httpHost node = ".") /\
    defaultGetConnFunc DialContext NetworkType node ctx =
      DialContext ctx NetworkType
        (String.append host (String.append ":" (pretty (p2pPort node)))).
Proof.
  unfold defaultGetConnFunc, GetURL, GetP2PPort, Sprintf_d.
  destruct (String.eqb (httpHost node) "0.0.0.0") eqn:H1;
    destruct (String.eqb (httpHost node) ".") eqn:H2; simpl;
    eexists; (split; [reflexivity|]); (split; [auto|]); (split; [|reflexivity]).
  all: repeat match goal with
              | H : String.eqb _ _ = true |- _ => apply String.eqb_eq in H
              | H : String.eqb _ _ = false |- _ => apply String.eqb_neq in H
              end.
  all: split; auto; try done.
  intros [?|?]; done.
Qed.

End MoreNodeFacts.

(** ** Provisioning *)

(** Membership in a short explicit list of calls, and its refutation. *)
Ltac in_file_calls :=
  unfold file_calls; simpl; rewrite !elem_of_cons; by eauto 6.
Ltac not_all_succeeded_aux H :=
  exfalso; simpl in H;
  repeat (apply elem_of_cons in H as [H|H]; [discriminate|]);
  by apply elem_of_nil in H.
Ltac not_all_succeeded H k :=
  let Hin := fresh in
  assert (Hin := H k ltac:(in_file_calls)); not_all_succeeded_aux Hin.

Section MoreProvisioningFacts.

Variable range : forall V : Type, gmap string V -> list (string * V).
Variable lib : Library.
Variable c : Constants.

Lemma failures_app (t1 t2 : trace) : failures (t1 ++ t2) = failures t1 ++ failures t2.
Proof. apply omap_app. Qed.

Lemma closed_app (t1 t2 : trace) : closed (t1 ++ t2) = closed t1 ++ closed t2.
Proof. unfold closed. rewrite calls_app. apply omap_app. Qed.

(** The three ways a call of [createFileAndWrite] goes. *)
Lemma createFileAndWrite_cases (path : string) (contents : list Byte.byte) (t : trace) :
  let dir := MkdirAll (filepath_Dir lib path) mode_0o750 in
  (exists e, createFileAndWrite lib path contents t =
     (Err e, t ++ [Called dir (Some e)])) \/
  (exists e, createFileAndWrite lib path contents t =
     (Err e, t ++ [Called dir None; Called (Create path) (Some e)])) \/
  (exists w k, createFileAndWrite lib path contents t =
     (match w with None => Ok tt | Some e => Err e end,
      t ++ [Called dir None; Called (Create path) None;
            Called (Write path contents) w; Called (Close path) k])).
Proof.
  intros dir. subst dir. unfold createFileAndWrite, bind. rewrite syscall_run.
  destruct (os_fails lib t _) as [e1|]; simpl; [left; eauto|].
  rewrite syscall_run.
  destruct (os_fails lib (t ++ _) (Create _)) as [e2|]; simpl.
  { right; left. exists e2. by rewrite <- app_assoc. }
  right; right. rewrite syscall_run.
  destruct (os_fails lib _ (Write _ _)) as [e3|]; simpl; rewrite syscall_run;
    destruct (os_fails lib _ (Close _)) as [e4|]; simpl;
    rewrite <- !app_assoc; simpl;
    match goal with
    | |- context [Called (Write _ _) ?w :: Called (Close _) ?k :: nil] =>
        exists w, k; reflexivity
    end.
Qed.

(** X18: [createFileAndWrite] asks for the parent directory, then creates
    the file, then writes, and stops at the first of these calls that
    fails, returning its error as it is; the file is closed exactly when
    it was created, whatever the write did, and an error of the close is
    not returned. *)
Theorem createFileAndWrite_protocol (path : string) (contents : list Byte.byte)
    (t : trace) :
  exists evs,
    (createFileAndWrite lib path contents t).2 = t ++ evs /\
    calls evs `prefix_of` file_calls lib path contents ++ [Close path] /\
    (closed evs = [path] <-> Create path ∈ succeeded evs) /\
    ((createFileAndWrite lib path contents t).1 = Ok tt <->
       forall k, k ∈ file_calls lib path contents -> k ∈ succeeded evs) /\
    (forall e, (createFileAndWrite lib path contents t).1 = Err e ->
       exists k, failures evs = [(k, e)] /\ k ∈ file_calls lib path contents /\
         forall evs1 evs2, evs = evs1 ++ Called k (Some e) :: evs2 ->
           evs2 = [] \/ exists ce, evs2 = [Called (Close path) ce]).
Proof.
  destruct (createFileAndWrite_cases path contents t)
    as [[e ->]|[[e ->]|(w & k & ->)]]; simpl; eexists; (split; [reflexivity|]).
  - split; [by eexists|]. split; [|split].
    + simpl. split; [done|]. intros H. by apply elem_of_nil in H.
    + split; [done|]. intros H. not_all_succeeded H (Create path).
    + intros e0 [= <-]. eexists. split; [reflexivity|]. split; [in_file_calls|].
      intros evs1 evs2 Heq. destruct evs1 as [|? [|? ?]]; simpl in Heq; simplify_eq; eauto.
  - split; [by eexists|]. split; [|split].
    + simpl. split; [done|]. intros H. not_all_succeeded_aux H.
    + split; [done|]. intros H. not_all_succeeded H (Create path).
    + intros e0 [= <-]. eexists. split; [reflexivity|]. split; [in_file_calls|].
      intros evs1 evs2 Heq. destruct evs1 as [|? [|? [|? ?]]]; simpl in Heq; simplify_eq; eauto.
  - destruct w as [e|], k as [ce|]; simpl.
    all: split; [by exists []; rewrite app_nil_r|].
    all: split; [split; [intros _; rewrite !elem_of_cons; by eauto|done]|].
    all: split.
    all: try (split; [done|]; intros H; not_all_succeeded H (Write path contents)).
    all: try (split; [|done]; intros _ k0 Hk0; unfold file_calls in Hk0;
              repeat (apply elem_of_cons in Hk0 as [->|Hk0]; [in_file_calls|]);
              by apply elem_of_nil in Hk0).
    all: try done.
    all: intros e0 [= <-]; eexists; (split; [reflexivity|]);
         (split; [in_file_calls|]); intros evs1 evs2 Heq;
         destruct evs1 as [|? [|? [|? [|? [|? ?]]]]]; simpl in Heq; simplify_eq; eauto.
Qed.

(** What one call of [createFileAndWrite] leaves in the trace. *)
Lemma createFileAndWrite_summary (path : string) (contents : list Byte.byte)
    (t : trace) :
  exists evs,
    (createFileAndWrite lib path contents t).2 = t ++ evs /\
    ((createFileAndWrite lib path contents t).1 = Ok tt ->
       performed lib path contents evs /\ created evs = [path] /\ failures evs = []) /\
    (forall e, (createFileAndWrite lib path contents t).1 = Err e ->
       created evs `prefix_of` [path] /\
       exists k, failures evs = [(k, e)] /\ k ∈ file_calls lib path contents).
Proof.
  destruct (createFileAndWrite_cases path contents t)
    as [[e ->]|[[e ->]|(w & k & ->)]]; simpl; eexists; (split; [reflexivity|]).
  - split; [done|]. intros e0 [= <-]. split; [by eexists|].
    eexists. split; [reflexivity|in_file_calls].
  - split; [done|]. intros e0 [= <-]. split; [by exists []|].
    eexists. split; [reflexivity|in_file_calls].
  - destruct w as [e|], k as [ce|]; simpl.
    all: split; [try done|].
    all: try (intros _; repeat split; simpl; by repeat constructor).
    all: try done.
    all: intros e0 [= <-]; (split; [by exists []|]);
         eexists; (split; [reflexivity|in_file_calls]).
Qed.

Lemma write_files_summary (files : list file) (flags : gmap string string) (t : trace) :
  exists evs,
    (write_files lib files flags t).2 = t ++ evs /\
    (forall flags', (write_files lib files flags t).1 = Ok flags' ->
       created evs = path <$> files /\ failures evs = []) /\
    (forall e, (write_files lib files flags t).1 = Err e ->
       created evs `prefix_of` path <$> files /\
       exists f k err,
         f ∈ files /\ e = couldnt_write (path f) err /\
         failures evs = [(k, err)] /\ k ∈ file_calls lib (path f) (contents f)).
Proof.
  revert flags t. induction files as [|f rest IH]; intros flags t; simpl.
  - exists []. split; [by rewrite app_nil_r|]. split; [done|]. intros e [=].
  - unfold bind, wrapping.
    destruct (createFileAndWrite_summary (path f) (contents f) t) as (evs1 & E1 & S1 & F1).
    destruct (createFileAndWrite lib (path f) (contents f) t) as [[[]|e1] t1];
      simpl in *; subst t1.
    + destruct (S1 eq_refl) as (_ & Hc1 & Hf1). clear S1 F1.
      destruct (IH (<[pathKey f := flagValue f]> flags) (t ++ evs1))
        as (evs2 & E2 & S2 & F2).
      exists (evs1 ++ evs2). split; [by rewrite E2, app_assoc|].
      rewrite created_app, failures_app, Hc1, Hf1. simpl. split.
      * intros flags' Hok. destruct (S2 flags' Hok) as [-> ->]. done.
      * intros e Herr. destruct (F2 e Herr) as (Hpre & g & k & err & Hg & -> & Hfail & Hk).
        split; [by apply prefix_cons|].
        exists g, k, err. split; [by apply elem_of_cons; right|done].
    + exists evs1. split; [done|]. split; [done|]. intros e [= <-].
      destruct (F1 e1 eq_refl) as (Hpre & k & Hfail & Hk).
      split; [by apply (prefix_app_r _ [path f] (path <$> rest))|].
      exists f, k, e1. split; [by apply elem_of_cons; left|done].
Qed.

Lemma write_overrides_summary (pathOf : string -> string)
    (entries : list (string * string)) (t : trace) :
  exists evs,
    (write_overrides lib pathOf entries t).2 = t ++ evs /\
    ((write_overrides lib pathOf entries t).1 = Ok tt ->
       created evs = pathOf <$> entries.*1 /\ failures evs = [] /\
       forall key text, (key, text) ∈ entries ->
         performed lib (pathOf key) (String.list_byte_of_string text) evs) /\
    (forall e, (write_overrides lib pathOf entries t).1 = Err e ->
       created evs `prefix_of` pathOf <$> entries.*1 /\
       exists key text k err,
         (key, text) ∈ entries /\ e = couldnt_write (pathOf key) err /\
         failures evs = [(k, err)] /\
         k ∈ file_calls lib (pathOf key) (String.list_byte_of_string text)).
Proof.
  revert t. induction entries as [|[key text] rest IH]; intros t; simpl.
  - exists []. split; [by rewrite app_nil_r|]. split; [|intros e [=]].
    intros _. split; [done|]. split; [done|]. intros ? ? H. by apply elem_of_nil in H.
  - unfold bind, wrapping.
    destruct (createFileAndWrite_summary (pathOf key) (String.list_byte_of_string text) t)
      as (evs1 & E1 & S1 & F1).
    destruct (createFileAndWrite lib (pathOf key) _ t) as [[[]|e1] t1];
      simpl in *; subst t1.
    + destruct (S1 eq_refl) as (Hp1 & Hc1 & Hf1). clear S1 F1.
      destruct (IH (t ++ evs1)) as (evs2 & E2 & S2 & F2).
      exists (evs1 ++ evs2). split; [by rewrite E2, app_assoc|].
      rewrite created_app, failures_app, Hc1, Hf1. simpl. split.
      * intros Hok. destruct (S2 Hok) as (-> & -> & Hall). split; [done|].
        split; [done|]. intros key' text' Hin.
        apply elem_of_cons in Hin as [[= -> ->]|Hin].
        -- by apply performed_app_l.
        -- apply performed_app_r. by apply Hall.
      * intros e Herr.
        destruct (F2 e Herr) as (Hpre & key' & text' & k & err & Hin & -> & Hfail & Hk).
        split; [by apply prefix_cons|].
        exists key', text', k, err. split; [by apply elem_of_cons; right|done].
    + exists evs1. split; [done|]. split; [done|]. intros e [= <-].
      destruct (F1 e1 eq_refl) as (Hpre & k & Hfail & Hk).
      split; [by apply (prefix_app_r _ [pathOf key] (pathOf <$> rest.*1))|].
      exists key, text, k, e1. split; [by apply elem_of_cons; left|done].
Qed.

(** What a run of [writeFiles] whose key decodes leaves in the trace. *)
Lemma writeFiles_summary (networkID : Z) (genesis : list Byte.byte)
    (nodeRootDir : string) (nodeConfig : Config) (t : trace) (decoded : list Byte.byte) :
  base64_DecodeString lib (StakingSigningKey nodeConfig) = Ok decoded ->
  let cdir := filepath_Join lib [nodeRootDir; chainConfigSubDir c] in
  let sdir := filepath_Join lib [nodeRootDir; subnetConfigSubDir c] in
  let planned := node_paths lib c networkID nodeRootDir nodeConfig
                 ++ override_paths range lib c nodeRootDir nodeConfig in
  exists evs,
    (writeFiles range lib c networkID genesis nodeRootDir nodeConfig t).2 = t ++ evs /\
    (forall flags,
       (writeFiles range lib c networkID genesis nodeRootDir nodeConfig t).1 = Ok flags ->
       created evs = planned /\ failures evs = [] /\
       MkdirAll cdir mode_0o750 ∈ succeeded evs /\
       MkdirAll sdir mode_0o750 ∈ succeeded evs /\
       (forall key text, (key, text) ∈ range_of range (ChainConfigFiles nodeConfig) ->
          performed lib (chainConfigPath lib c cdir key)
            (String.list_byte_of_string text) evs) /\
       (forall key text, (key, text) ∈ range_of range (UpgradeConfigFiles nodeConfig) ->
          performed lib (chainUpgradePath lib c cdir key)
            (String.list_byte_of_string text) evs) /\
       (forall key text, (key, text) ∈ range_of range (SubnetConfigFiles nodeConfig) ->
          performed lib (subnetConfigPath lib sdir key)
            (String.list_byte_of_string text) evs)) /\
    (forall e,
       (writeFiles range lib c networkID genesis nodeRootDir nodeConfig t).1 = Err e ->
       created evs `prefix_of` planned /\
       ((exists k, failures evs = [(k, e)] /\
           (k = MkdirAll cdir mode_0o750 \/ k = MkdirAll sdir mode_0o750)) \/
        (exists p bytes k err,
           p ∈ planned /\ e = couldnt_write p err /\
           failures evs = [(k, err)] /\ k ∈ file_calls lib p bytes))).
Proof.
  intros Hdec cdir sdir planned. unfold writeFiles, bind, lift. rewrite Hdec.
  set (files := files_of lib c networkID genesis nodeRootDir nodeConfig decoded).
  fold cdir sdir.
  assert (Hpaths : path <$> files = node_paths lib c networkID nodeRootDir nodeConfig)
    by apply files_of_paths.
  set (o1 := chainConfigPath lib c cdir <$> (range_of range (ChainConfigFiles nodeConfig)).*1).
  set (o2 := chainUpgradePath lib c cdir <$> (range_of range (UpgradeConfigFiles nodeConfig)).*1).
  set (o3 := subnetConfigPath lib sdir <$> (range_of range (SubnetConfigFiles nodeConfig)).*1).
  assert (Hplanned : planned = (path <$> files) ++ o1 ++ o2 ++ o3)
    by (by rewrite Hpaths).
  clearbody planned. subst planned.
  destruct (write_files_summary files ∅ t) as (evs1 & E1 & S1 & F1).
  destruct (write_files lib files ∅ t) as [[flags1|e1] t1]; simpl in E1; subst t1.
  2:{ exists evs1. split; [done|]. split; [done|]. intros e [= <-].
      destruct (F1 e1 eq_refl) as (Hpre & f & k & err & Hf & -> & Hfail & Hk).
      split; [by apply prefix_app_r|]. right. exists (path f), (contents f), k, err.
      split; [|done]. apply elem_of_app. left. by apply list_elem_of_fmap_2. }
  destruct (S1 flags1 eq_refl) as [Hc1 Hf1]. clear S1 F1.
  rewrite syscall_run. destruct (os_fails lib (t ++ evs1) _) as [e2|].
  { eexists. split; [by rewrite <- app_assoc|]. split; [done|]. intros e [= <-].
    rewrite created_app, failures_app, Hc1, Hf1. simpl. rewrite app_nil_r.
    split; [by apply prefix_app_r|]. left. eauto. }
  rewrite syscall_run. destruct (os_fails lib ((t ++ evs1) ++ _) _) as [e3|].
  { eexists. split; [by rewrite <- !app_assoc|]. split; [done|]. intros e [= <-].
    rewrite !created_app, !failures_app, Hc1, Hf1. simpl. rewrite app_nil_r.
    split; [by apply prefix_app_r|]. left. eauto. }
  match goal with
  | |- context [write_overrides lib ?f ?l ?t0] =>
      destruct (write_overrides_summary f l t0) as (evs2 & E2 & S2 & F2);
      destruct (write_overrides lib f l t0) as [[[]|e4] t2]; simpl in E2; subst t2
  end.
  2:{ eexists. split; [by rewrite <- !app_assoc|]. split; [done|]. intros e [= <-].
      destruct (F2 e4 eq_refl) as (Hpre & key & text & k & err & Hin & -> & Hfail & Hk).
      rewrite !created_app, !failures_app, Hc1, Hf1, Hfail. simpl.
      split; [apply prefix_app; by apply prefix_app_r|].
      right. eexists _, _, k, err. split; [|done].
      rewrite !elem_of_app. right; left. apply list_elem_of_fmap_2.
      apply (list_elem_of_fmap_2 fst _ (key, text)). done. }
  destruct (S2 eq_refl) as (Hc2 & Hf2 & Hp2). clear S2 F2.
  match goal with
  | |- context [write_overrides lib ?f ?l ?t0] =>
      destruct (write_overrides_summary f l t0) as (evs3 & E3 & S3 & F3);
      destruct (write_overrides lib f l t0) as [[[]|e5] t3]; simpl in E3; subst t3
  end.
  2:{ eexists. split; [by rewrite <- !app_assoc|]. split; [done|]. intros e [= <-].
      destruct (F3 e5 eq_refl) as (Hpre & key & text & k & err & Hin & -> & Hfail & Hk).
      rewrite !created_app, !failures_app, Hc1, Hf1, Hc2, Hf2, Hfail. simpl.
      split; [do 2 apply prefix_app; by apply prefix_app_r|].
      right. eexists _, _, k, err. split; [|done].
      rewrite !elem_of_app. right; right; left. apply list_elem_of_fmap_2.
      apply (list_elem_of_fmap_2 fst _ (key, text)). done. }
  destruct (S3 eq_refl) as (Hc3 & Hf3 & Hp3). clear S3 F3.
  match goal with
  | |- context [write_overrides lib ?f ?l ?t0] =>
      destruct (write_overrides_summary f l t0) as (evs4 & E4 & S4 & F4);
      destruct (write_overrides lib f l t0) as [[[]|e6] t4]; simpl in E4; subst t4
  end.
  2:{ eexists. split; [by rewrite <- !app_assoc|]. split; [done|]. intros e [= <-].
      destruct (F4 e6 eq_refl) as (Hpre & key & text & k & err & Hin & -> & Hfail & Hk).
      rewrite !created_app, !failures_app, Hc1, Hf1, Hc2, Hf2, Hc3, Hf3, Hfail. simpl.
      split; [by do 3 apply prefix_app|].
      right. eexists _, _, k, err. split; [|done].
      rewrite !elem_of_app. right; right; right. apply list_elem_of_fmap_2.
      apply (list_elem_of_fmap_2 fst _ (key, text)). done. }
  destruct (S4 eq_refl) as (Hc4 & Hf4 & Hp4). clear S4 F4.
  exists (evs1 ++ [Called (MkdirAll cdir mode_0o750) None]
          ++ [Called (MkdirAll sdir mode_0o750) None] ++ evs2 ++ evs3 ++ evs4).
  split; [by rewrite <- !app_assoc|]. split; [|done]. intros flags _.
  rewrite !created_app, !failures_app, !succeeded_app, Hc1, Hf1, Hc2, Hf2, Hc3, Hf3, Hc4, Hf4.
  split; [done|]. split; [done|].
  split; [rewrite !elem_of_app; right; left; apply list_elem_of_here|].
  split; [rewrite !elem_of_app; right; right; left; apply list_elem_of_here|].
  split; [|split].
  - intros key text Hin. do 3 apply performed_app_r. apply performed_app_l. by apply Hp2.
  - intros key text Hin. do 4 apply performed_app_r. apply performed_app_l. by apply Hp3.
  - intros key text Hin. do 5 apply performed_app_r. by apply Hp4.
Qed.

Lemma writeFiles_decode_failure (networkID : Z) (genesis : list Byte.byte)
    (nodeRootDir : string) (nodeConfig : Config) (t : trace) (e : error) :
  base64_DecodeString lib (StakingSigningKey nodeConfig) = Err e ->
  writeFiles range lib c networkID genesis nodeRootDir nodeConfig t = (Err e, t).
Proof. intros Hdec. unfold writeFiles, bind, lift. by rewrite Hdec. Qed.

(** X19: [makeNodeDir] asks for the directory [rootDir/nodeName] and for
    nothing else. It returns that path when the directory was made and
    when it was there already, which it says in a warning; any other error
    of the call is returned wrapped. An empty [rootDir] is warned about,
    never refused. *)
Theorem makeNodeDir_outcome (rootDir nodeName : string) (t : trace) :
  let dir := getNodeDir lib rootDir nodeName in
  exists (failure : option error) (evs : trace),
    (makeNodeDir lib rootDir nodeName t).2 = t ++ evs /\
    Called (Mkdir dir mode_0o755) failure ∈ evs /\
    calls evs = [Mkdir dir mode_0o755] /\
    (makeNodeDir lib rootDir nodeName t).1 =
      match failure with
      | None => Ok dir
      | Some err =>
          if os_IsExist lib err then Ok dir
          else Err (Wrapf "error creating temp dir %w" [] err)
      end /\
    warnings evs =
      (if String.eqb rootDir ""
       then ["no network root directory defined; will create this node's runtime directory in working directory"]
       else [])
      ++ match failure with
         | Some err =>
             if os_IsExist lib err then ["node root directory already exists"] else []
         | None => []
         end.
Proof.
  intros dir. subst dir. unfold makeNodeDir, bind, warn, ret.
  destruct (String.eqb rootDir ""); simpl; rewrite syscall_run;
    destruct (os_fails lib _ _) as [err|]; simpl;
    try destruct (os_IsExist lib err) eqn:Hexist; simpl;
    match goal with
    | |- context [Called (Mkdir _ _) ?f] => exists f
    end;
    eexists; (split; [by rewrite <- ?app_assoc|]); rewrite ?Hexist;
    (split; [simpl; rewrite ?elem_of_cons; by eauto|]); done.
Qed.

(** X20: [writeFiles] decodes the signing key before anything else: when
    the key does not decode it returns the decoder's error and has made no
    call at all, and when the key decodes it has made at least one. *)
Theorem writeFiles_decodes_first (networkID : Z) (genesis : list Byte.byte)
    (nodeRootDir : string) (nodeConfig : Config) (t : trace) :
  (forall e, base64_DecodeString lib (StakingSigningKey nodeConfig) = Err e ->
     writeFiles range lib c networkID genesis nodeRootDir nodeConfig t = (Err e, t)) /\
  ((writeFiles range lib c networkID genesis nodeRootDir nodeConfig t).2 = t <->
     is_Ok (base64_DecodeString lib (StakingSigningKey nodeConfig)) = false).
Proof.
  split; [intros e; apply writeFiles_decode_failure|].
  destruct (base64_DecodeString lib (StakingSigningKey nodeConfig)) as [decoded|e] eqn:Hdec.
  - split; [|done]. intros Hsame. exfalso.
    destruct (writeFiles_summary networkID genesis nodeRootDir nodeConfig t decoded Hdec)
      as (evs & E & Hok & Herr).
    rewrite E in Hsame. rewrite <- (app_nil_r t) in Hsame at 2.
    apply app_inv_head in Hsame. subst evs.
    destruct (writeFiles range lib c networkID genesis nodeRootDir nodeConfig t).1
      as [flags|e].
    + destruct (Hok flags eq_refl) as (Hcreated & _).
      unfold node_paths, staking_paths in Hcreated. by simpl in Hcreated.
    + destruct (Herr e eq_refl) as (_ & [(k & Hf & _)|(p0 & b & k & err & _ & _ & Hf & _)]);
        by simpl in Hf.
  - split; [done|]. intros _.
    by rewrite (writeFiles_decode_failure networkID genesis nodeRootDir nodeConfig t e).
Qed.

(** X21: the map a successful [writeFiles] returns always has the paths of
    the three credential files and of the two config directories under
    their keys, and no key other than the seven provisioning knows. *)
Theorem writeFiles_fixed_flags (networkID : Z) (genesis : list Byte.byte)
    (nodeRootDir : string) (nodeConfig : Config) (t : trace)
    (flags : gmap string string) :
  NoDup (flag_keys c) ->
  (writeFiles range lib c networkID genesis nodeRootDir nodeConfig t).1 = Ok flags ->
  flags !! StakingTLSKeyPathKey c
    = Some (filepath_Join lib [nodeRootDir; stakingKeyFileName c]) /\
  flags !! StakingCertPathKey c
    = Some (filepath_Join lib [nodeRootDir; stakingCertFileName c]) /\
  flags !! StakingSignerKeyPathKey c
    = Some (filepath_Join lib [nodeRootDir; stakingSigningKeyFileName c]) /\
  flags !! ChainConfigDirKey c
    = Some (filepath_Join lib [nodeRootDir; chainConfigSubDir c]) /\
  flags !! SubnetConfigDirKey c
    = Some (filepath_Join lib [nodeRootDir; subnetConfigSubDir c]) /\
  forall k, is_Some (flags !! k) -> k ∈ flag_keys c.
Proof.
  intros Hnd Hflags.
  destruct (writeFiles_run range lib c networkID genesis nodeRootDir nodeConfig t)
    as (evs & _ & _ & Hok).
  destruct (Hok flags Hflags) as (decoded & _ & -> & _). clear Hok Hflags.
  assert (Hkeys : forall k,
    is_Some ((<[SubnetConfigDirKey c := filepath_Join lib [nodeRootDir; subnetConfigSubDir c]]>
      (<[ChainConfigDirKey c := filepath_Join lib [nodeRootDir; chainConfigSubDir c]]>
        (flags_after (files_of lib c networkID genesis nodeRootDir nodeConfig decoded) ∅)))
      !! k) -> k ∈ flag_keys c).
  { intros k Hk. unfold flag_keys. rewrite !elem_of_cons.
    unfold files_of, flags_after in Hk.
    destruct (negb (networkID =? LocalID c));
      destruct (negb (Nat.eqb (String.length (ConfigFile nodeConfig)) 0)); simpl in Hk;
      repeat (apply lookup_insert_is_Some in Hk as [<-|[_ Hk]]; [tauto|]);
      rewrite lookup_empty in Hk; by destruct Hk. }
  split; [|split; [|split; [|split; [|split; [|exact Hkeys]]]]].
  all: clear Hkeys; distinct_keys Hnd; unfold files_of, flags_after.
  all: destruct (negb (networkID =? LocalID c));
       destruct (negb (Nat.eqb (String.length (ConfigFile nodeConfig)) 0)); simpl.
  all: repeat first [ rewrite lookup_insert_eq | rewrite lookup_insert_ne by done ];
       done.
Qed.

(** X22: a successful [writeFiles] has created the three credential files
    under the node root: the key file with the text of the TLS key, the
    certificate file with the text of the certificate, and the signer key
    file with the decoded bytes of the signing key, not its base64 text. *)
Theorem writeFiles_credentials (networkID : Z) (genesis : list Byte.byte)
    (nodeRootDir : string) (nodeConfig : Config) (t : trace) :
  exists evs,
    (writeFiles range lib c networkID genesis nodeRootDir nodeConfig t).2 = t ++ evs /\
    forall flags,
      (writeFiles range lib c networkID genesis nodeRootDir nodeConfig t).1 = Ok flags ->
      exists decoded,
        base64_DecodeString lib (StakingSigningKey nodeConfig) = Ok decoded /\
        performed lib (filepath_Join lib [nodeRootDir; stakingKeyFileName c])
          (String.list_byte_of_string (StakingKey nodeConfig)) evs /\
        performed lib (filepath_Join lib [nodeRootDir; stakingCertFileName c])
          (String.list_byte_of_string (StakingCert nodeConfig)) evs /\
        performed lib (filepath_Join lib [nodeRootDir; stakingSigningKeyFileName c])
          decoded evs.
Proof.
  destruct (writeFiles_run range lib c networkID genesis nodeRootDir nodeConfig t)
    as (evs & E & _ & Hok).
  exists evs. split; [done|]. intros flags Hflags.
  destruct (Hok flags Hflags) as (decoded & Hdec & _ & Hperf).
  exists decoded. split; [done|].
  assert (Hin : forall f,
    f ∈ [ node_file lib nodeRootDir (stakingKeyFileName c) (StakingTLSKeyPathKey c)
            (String.list_byte_of_string (StakingKey nodeConfig));
          node_file lib nodeRootDir (stakingCertFileName c) (StakingCertPathKey c)
            (String.list_byte_of_string (StakingCert nodeConfig));
          node_file lib nodeRootDir (stakingSigningKeyFileName c)
            (StakingSignerKeyPathKey c) decoded ] ->
    f ∈ files_of lib c networkID genesis nodeRootDir nodeConfig decoded).
  { intros f Hf. unfold files_of.
    destruct (negb (networkID =? LocalID c));
      destruct (negb (Nat.eqb (String.length (ConfigFile nodeConfig)) 0));
      rewrite ?elem_of_app; auto. }
  split; [|split].
  - apply (Hperf (node_file lib nodeRootDir (stakingKeyFileName c)
                    (StakingTLSKeyPathKey c)
                    (String.list_byte_of_string (StakingKey nodeConfig)))).
    apply Hin. rewrite !elem_of_cons. auto.
  - apply (Hperf (node_file lib nodeRootDir (stakingCertFileName c)
                    (StakingCertPathKey c)
                    (String.list_byte_of_string (StakingCert nodeConfig)))).
    apply Hin. rewrite !elem_of_cons. auto.
  - apply (Hperf (node_file lib nodeRootDir (stakingSigningKeyFileName c)
                    (StakingSignerKeyPathKey c) decoded)).
    apply Hin. rewrite !elem_of_cons. auto.
Qed.

Lemma range_of_lookup (m : gomap string) (key text : string) :
  (forall g : gmap string string, range string g ≡ₚ map_to_list g) ->
  index m key = Some text -> (key, text) ∈ range_of range m.
Proof.
  intros Hrange Hk. destruct m as [g|]; [|done]. simpl in *.
  rewrite (Hrange g). by apply elem_of_map_to_list.
Qed.

(** X23: a successful [writeFiles] has asked for the chain-config and the
    subnet-config directories under the node root, with success, whether
    or not the node has any override (the maps may be empty or nil). *)
Theorem writeFiles_config_dirs (networkID : Z) (genesis : list Byte.byte)
    (nodeRootDir : string) (nodeConfig : Config) (t : trace) :
  exists evs,
    (writeFiles range lib c networkID genesis nodeRootDir nodeConfig t).2 = t ++ evs /\
    forall flags,
      (writeFiles range lib c networkID genesis nodeRootDir nodeConfig t).1 = Ok flags ->
      MkdirAll (filepath_Join lib [nodeRootDir; chainConfigSubDir c]) mode_0o750
        ∈ succeeded evs /\
      MkdirAll (filepath_Join lib [nodeRootDir; subnetConfigSubDir c]) mode_0o750
        ∈ succeeded evs.
Proof.
  destruct (base64_DecodeString lib (StakingSigningKey nodeConfig)) as [decoded|e] eqn:Hdec.
  - destruct (writeFiles_summary networkID genesis nodeRootDir nodeConfig t decoded Hdec)
      as (evs & E & Hok & _).
    exists evs. split; [done|]. intros flags Hflags.
    destruct (Hok flags Hflags) as (_ & _ & Hc & Hs & _). done.
  - rewrite (writeFiles_decode_failure networkID genesis nodeRootDir nodeConfig t e Hdec).
    exists []. split; [by rewrite app_nil_r|]. intros flags [=].
Qed.

(** X24: a successful [writeFiles] has written one file for every entry
    of the three override maps: the chain config of an alias at
    [chainConfigDir/alias/configFileName], its upgrade at
    [chainConfigDir/alias/upgradeConfigFileName], the config of a subnet
    at [subnetConfigDir/subnetID.json], each with the text of the entry. *)
Theorem writeFiles_overrides (networkID : Z) (genesis : list Byte.byte)
    (nodeRootDir : string) (nodeConfig : Config) (t : trace) :
  (forall g : gmap string string, range string g ≡ₚ map_to_list g) ->
  let cdir := filepath_Join lib [nodeRootDir; chainConfigSubDir c] in
  let sdir := filepath_Join lib [nodeRootDir; subnetConfigSubDir c] in
  exists evs,
    (writeFiles range lib c networkID genesis nodeRootDir nodeConfig t).2 = t ++ evs /\
    forall flags,
      (writeFiles range lib c networkID genesis nodeRootDir nodeConfig t).1 = Ok flags ->
      (forall chainAlias text, index (ChainConfigFiles nodeConfig) chainAlias = Some text ->
         performed lib (filepath_Join lib [cdir; chainAlias; configFileName c])
           (String.list_byte_of_string text) evs) /\
      (forall chainAlias text, index (UpgradeConfigFiles nodeConfig) chainAlias = Some text ->
         performed lib (filepath_Join lib [cdir; chainAlias; upgradeConfigFileName c])
           (String.list_byte_of_string text) evs) /\
      (forall subnetID text, index (SubnetConfigFiles nodeConfig) subnetID = Some text ->
         performed lib (filepath_Join lib [sdir; String.append subnetID ".json"])
           (String.list_byte_of_string text) evs).
Proof.
  intros Hrange cdir sdir.
  destruct (base64_DecodeString lib (StakingSigningKey nodeConfig)) as [decoded|e] eqn:Hdec.
  - destruct (writeFiles_summary networkID genesis nodeRootDir nodeConfig t decoded Hdec)
      as (evs & E & Hok & _).
    exists evs. split; [done|]. intros flags Hflags.
    destruct (Hok flags Hflags) as (_ & _ & _ & _ & H1 & H2 & H3).
    split; [|split]; intros key text Hk.
    + apply (H1 key text). by apply range_of_lookup.
    + apply (H2 key text). by apply range_of_lookup.
    + apply (H3 key text). by apply range_of_lookup.
  - rewrite (writeFiles_decode_failure networkID genesis nodeRootDir nodeConfig t e Hdec).
    exists []. split; [by rewrite app_nil_r|]. intros flags [=].
Qed.

(** X25: the files [writeFiles] creates are, in this order, the credential
    files, the genesis file off the local network, the config file when
    there is a text, and the override files: a successful run has asked
    for exactly these and no call of it failed; a run that fails has asked
    for the first ones of them only. *)
Theorem writeFiles_creates_in_order (networkID : Z) (genesis : list Byte.byte)
    (nodeRootDir : string) (nodeConfig : Config) (t : trace) :
  let planned := node_paths lib c networkID nodeRootDir nodeConfig
                 ++ override_paths range lib c nodeRootDir nodeConfig in
  exists evs,
    (writeFiles range lib c networkID genesis nodeRootDir nodeConfig t).2 = t ++ evs /\
    created evs `prefix_of` planned /\
    (forall flags,
       (writeFiles range lib c networkID genesis nodeRootDir nodeConfig t).1 = Ok flags ->
       created evs = planned /\ failures evs = []).
Proof.
  intros planned.
  destruct (base64_DecodeString lib (StakingSigningKey nodeConfig)) as [decoded|e] eqn:Hdec.
  - destruct (writeFiles_summary networkID genesis nodeRootDir nodeConfig t decoded Hdec)
      as (evs & E & Hok & Herr).
    exists evs. split; [done|]. fold planned in Hok, Herr.
    destruct (writeFiles range lib c networkID genesis nodeRootDir nodeConfig t).1
      as [flags|e].
    + destruct (Hok flags eq_refl) as (Hcreated & Hfail & _).
      split; [by rewrite Hcreated|]. by intros flags' _.
    + destruct (Herr e eq_refl) as (Hpre & _). split; [done|]. intros flags [=].
  - rewrite (writeFiles_decode_failure networkID genesis nodeRootDir nodeConfig t e Hdec).
    exists []. split; [by rewrite app_nil_r|]. split; [apply prefix_nil|].
    intros flags [=].
Qed.

(** X26: a run of [writeFiles] that fails stopped at one failure: either
    the signing key did not decode, and nothing was called; or the call
    for one of the two config directories failed, and its error is
    returned as it is; or one of the calls for a file failed, and the
    error returned wraps the error of that call with the path of the
    file. No other call failed, a close apart. *)
Theorem writeFiles_failure (networkID : Z) (genesis : list Byte.byte)
    (nodeRootDir : string) (nodeConfig : Config) (t : trace) (e : error) :
  (writeFiles range lib c networkID genesis nodeRootDir nodeConfig t).1 = Err e ->
  exists evs,
    (writeFiles range lib c networkID genesis nodeRootDir nodeConfig t).2 = t ++ evs /\
    ((base64_DecodeString lib (StakingSigningKey nodeConfig) = Err e /\ evs = []) \/
     (exists k, failures evs = [(k, e)] /\
        (k = MkdirAll (filepath_Join lib [nodeRootDir; chainConfigSubDir c]) mode_0o750 \/
         k = MkdirAll (filepath_Join lib [nodeRootDir; subnetConfigSubDir c]) mode_0o750)) \/
     (exists p bytes k err,
        p ∈ node_paths lib c networkID nodeRootDir nodeConfig
            ++ override_paths range lib c nodeRootDir nodeConfig /\
        e = Wrapf "couldn't write file at %q: %w" [VString p] err /\
        failures evs = [(k, err)] /\ k ∈ file_calls lib p bytes)).
Proof.
  intros Hfail.
  destruct (base64_DecodeString lib (StakingSigningKey nodeConfig)) as [decoded|e0] eqn:Hdec.
  - destruct (writeFiles_summary networkID genesis nodeRootDir nodeConfig t decoded Hdec)
      as (evs & E & _ & Herr).
    exists evs. split; [done|]. destruct (Herr e Hfail) as (_ & [H|H]); auto.
  - rewrite (writeFiles_decode_failure networkID genesis nodeRootDir nodeConfig t e0 Hdec)
      in Hfail |- *.
    simpl in Hfail. simplify_eq. exists []. split; [by rewrite app_nil_r|]. by left.
Qed.

(** X27: [writeFiles] succeeds exactly when the signing key decodes and no
    call but a close failed. *)
Theorem writeFiles_succeeds_iff (networkID : Z) (genesis : list Byte.byte)
    (nodeRootDir : string) (nodeConfig : Config) (t : trace) :
  exists evs,
    (writeFiles range lib c networkID genesis nodeRootDir nodeConfig t).2 = t ++ evs /\
    (is_Ok (writeFiles range lib c networkID genesis nodeRootDir nodeConfig t).1 = true <->
     is_Ok (base64_DecodeString lib (StakingSigningKey nodeConfig)) = true /\
     failures evs = []).
Proof.
  destruct (base64_DecodeString lib (StakingSigningKey nodeConfig)) as [decoded|e] eqn:Hdec.
  - destruct (writeFiles_summary networkID genesis nodeRootDir nodeConfig t decoded Hdec)
      as (evs & E & Hok & Herr).
    exists evs. split; [done|].
    destruct (writeFiles range lib c networkID genesis nodeRootDir nodeConfig t).1
      as [flags|e].
    + destruct (Hok flags eq_refl) as (_ & Hfail & _). done.
    + split; [done|]. intros [_ Hnone].
      destruct (Herr e eq_refl) as (_ & [(k & Hf & _)|(p0 & b & k & err & _ & _ & Hf & _)]);
        rewrite Hnone in Hf; done.
  - rewrite (writeFiles_decode_failure networkID genesis nodeRootDir nodeConfig t e Hdec).
    exists []. split; [by rewrite app_nil_r|]. simpl. split; [done|]. by intros [? _].
Qed.

End MoreProvisioningFacts.

(** ** The further properties at the sample inputs *)

Lemma getConfigEntry_node_flags_shadow_witness :
  getConfigEntry (Some {[ "http-port" := VInt 9650 ]})
      (Some {[ "http-port" := VString "9650" ]}) "http-port" "9651" =
    getConfigEntry (Some {[ "http-port" := VInt 9650 ]}) None "http-port" "" /\
  is_Ok (getConfigEntry (Some {[ "http-port" := VInt 9650 ]})
           (Some {[ "http-port" := VString "9650" ]}) "http-port" "9651") = false.
Proof.
  assert (Hheld : index (Some ({[ "http-port" := VInt 9650 ]} : gmap string value))
                    "http-port" = Some (VInt 9650)) by reflexivity.
  destruct (getConfigEntry_node_flags_shadow (Some {[ "http-port" := VInt 9650 ]})
              "http-port" (VInt 9650) (Some {[ "http-port" := VString "9650" ]}) None
              "9651" "" Hheld) as [Hsame Hfails].
  split; [exact Hsame|]. apply Hfails. reflexivity.
Defined.

(** The int -1 gives the port 65535. *)
Lemma getPort_int_wraps_witness :
  exists port,
    getPort (fun _ => 0) (Ok 30000) (Some {[ "http-port" := VInt (-1) ]}) None "http-port"
      = Ok port /\
    0 <= port < 65536 /\
    (exists k, -1 = port + 65536 * k) /\
    (0 <= -1 < 65536 -> port = -1).
Proof.
  apply (getPort_int_wraps (fun _ => 0) (Ok 30000)
           (Some {[ "http-port" := VInt (-1) ]}) None "http-port" (-1)).
  reflexivity.
Defined.

(** The float 9090.5, of mantissa 18181 and exponent -1, gives a port [p]
    with [2 p <= 18181 < 2 (p + 1)]: 9090. *)
Lemma getPort_float_drops_fraction_witness :
  exists port,
    getPort (fun _ => 0) (Ok 30000)
      (Some {[ "http-port" := VFloat64 (S754_finite false 18181 (-1)) ]}) None "http-port"
      = Ok port /\
    port * 2 ^ (- -1) <= 18181 < (port + 1) * 2 ^ (- -1).
Proof.
  apply (getPort_float_drops_fraction (fun _ => 0) (Ok 30000)
           (Some {[ "http-port" := VFloat64 (S754_finite false 18181 (-1)) ]}) None
           "http-port" 18181 (-1)).
  - reflexivity.
  - discriminate.
  - reflexivity.
Defined.

Lemma addNetworkFlags_order_and_keys_witness :
  exists B' : gmap string value,
    addNetworkFlags sample_range (Some sample_network_flags) (Some sample_node_flags)
      = Done (Some B') /\
    addNetworkFlags (fun V m => rev (map_to_list m)) (Some sample_network_flags)
      (Some sample_node_flags) = Done (Some B') /\
    dom B' = dom sample_network_flags ∪ dom sample_node_flags.
Proof.
  apply (addNetworkFlags_order_and_keys sample_range (fun V m => rev (map_to_list m))
           sample_network_flags sample_node_flags).
  - reflexivity.
  - symmetry. apply Permutation_rev.
Defined.

Lemma addNetworkFlags_idempotent_witness :
  exists B' : gmap string value,
    addNetworkFlags sample_range (Some sample_network_flags) (Some sample_node_flags)
      = Done (Some B') /\
    addNetworkFlags sample_range (Some sample_network_flags) (Some B') = Done (Some B').
Proof.
  apply (addNetworkFlags_idempotent sample_range sample_network_flags sample_node_flags).
  reflexivity.
Defined.

Lemma addNetworkFlags_twice_witness :
  exists B1 B2 : gmap string value,
    addNetworkFlags sample_range (Some sample_network_flags) (Some sample_node_flags)
      = Done (Some B1) /\
    addNetworkFlags sample_range (Some sample_more_flags) (Some B1) = Done (Some B2) /\
    forall k, B2 !! k =
      match sample_node_flags !! k with
      | Some v => Some v
      | None =>
          match sample_network_flags !! k with
          | Some v => Some v
          | None => sample_more_flags !! k
          end
      end.
Proof.
  apply (addNetworkFlags_twice sample_range sample_network_flags sample_more_flags
           sample_node_flags); reflexivity.
Defined.

Lemma addNetworkFlags_nil_node_panics_witness :
  addNetworkFlags sample_range (Some sample_network_flags) None
    = Panic "assignment to entry in nil map" /\
  addNetworkFlags sample_range (Some ∅) None = Done None.
Proof.
  split.
  - apply (proj2 (addNetworkFlags_nil_node_panics sample_range sample_network_flags
                    (reflexivity _))).
    intros Hempty. apply (f_equal (fun m => m !! "network-id")) in Hempty.
    discriminate Hempty.
  - apply (proj1 (addNetworkFlags_nil_node_panics sample_range ∅ (reflexivity _))).
    reflexivity.
Defined.

Lemma AttachPeer_keeps_other_peers_witness :
  index (attachedPeers
           (AttachPeer sample_attachment (sample_node "" (Ok tt)) tt tt).2) "NodeID-sample"
    = Some tt.
Proof.
  assert (Hreturned : (AttachPeer sample_attachment (sample_node "" (Ok tt)) tt tt).1
                      = Done (Ok tt)) by reflexivity.
  apply (proj1 (AttachPeer_keeps_other_peers sample_attachment (sample_node "" (Ok tt))
                  tt tt tt Hreturned)).
Defined.

(** A second call, whose dial fails, leaves the peer of the first. *)
Lemma AttachPeer_never_removes_witness :
  let node1 := (AttachPeer sample_attachment (sample_node "" (Ok tt)) tt tt).2 in
  let node1' := with_attachedPeers (attachedPeers node1)
                  (sample_node "" (Err connection_refused)) in
  is_Some (index (attachedPeers (AttachPeer sample_attachment node1' tt tt).2)
             "NodeID-sample").
Proof.
  apply AttachPeer_never_removes. exists tt. reflexivity.
Defined.

Lemma AttachPeer_then_send_witness :
  SendOutboundMessage sample_messaging
      (AttachPeer sample_attachment (sample_node "" (Ok tt)) tt tt).2 tt
      "NodeID-sample" [Byte.x01] 7
    = (true, None).
Proof.
  apply (AttachPeer_then_send sample_attachment sample_messaging (sample_node "" (Ok tt))
           tt tt tt [Byte.x01] 7).
  reflexivity.
Defined.

(** The flag map says debug, the config file says info. *)
Lemma GetFlag_getConfigEntry_precedence_witness :
  GetFlag sample_Unmarshal_document sample_node_with_document "log-level" = Ok "info" /\
  getConfigEntry (Flags (config sample_node_with_document))
    (Some {[ "log-level" := VString "info" ]}) "log-level" "" = Ok "debug".
Proof.
  apply (GetFlag_getConfigEntry_precedence sample_Unmarshal_document
           sample_node_with_document "log-level"
           (Some {[ "log-level" := VString "info" ]}) "info" "debug" "").
  - discriminate.
  - reflexivity.
  - reflexivity.
  - reflexivity.
Defined.

Lemma GetFlag_mismatch_witness :
  GetFlag sample_Unmarshal (sample_node "" (Ok tt)) "http-port" =
    Err (Errorf "unexpected type for %q expected string got %T"
           [VString "http-port"; VInt 9650]) /\
  names_key_and_type
    (Errorf "unexpected type for %q expected string got %T"
       [VString "http-port"; VInt 9650]) "http-port" (VInt 9650) = true.
Proof.
  assert (Hint : is_string (VInt 9650) = false) by reflexivity.
  destruct (GetFlag_mismatch sample_Unmarshal (sample_node "" (Ok tt)) "http-port"
              (VInt 9650) Hint) as (Hnames & _ & Hflags).
  split; [|exact Hnames]. apply Hflags; reflexivity.
Defined.

Lemma writeFiles_fixed_flags_witness :
  NoDup (flag_keys sample_constants) /\
  exists flags,
    (writeFiles sample_range sample_lib sample_constants 1337 [Byte.x7b; Byte.x7d]
       "/tmp/net/node1" (sample_config "{}") []).1 = Ok flags /\
    flags !! "staking-tls-key-file" = Some "/tmp/net/node1/staking.key" /\
    flags !! "chain-config-dir" = Some "/tmp/net/node1/chainConfigs".
Proof.
  split; [exact sample_keys_distinct|].
  destruct (writeFiles sample_range sample_lib sample_constants 1337 [Byte.x7b; Byte.x7d]
              "/tmp/net/node1" (sample_config "{}") []).1 as [flags|e] eqn:Hrun.
  - exists flags. split; [reflexivity|].
    destruct (writeFiles_fixed_flags sample_range sample_lib sample_constants 1337
                [Byte.x7b; Byte.x7d] "/tmp/net/node1" (sample_config "{}") [] flags
                sample_keys_distinct Hrun) as (Hkey & _ & _ & Hchain & _).
    split; [exact Hkey|exact Hchain].
  - exfalso. pose proof (proj1 writeFiles_sample_succeeds) as Hok.
    rewrite Hrun in Hok. discriminate Hok.
Defined.

Lemma writeFiles_overrides_witness :
  exists evs,
    (writeFiles sample_range sample_lib sample_constants 1337 [Byte.x7b; Byte.x7d]
       "/tmp/net/node1" (sample_config "{}") []).2 = [] ++ evs /\
    forall flags,
      (writeFiles sample_range sample_lib sample_constants 1337 [Byte.x7b; Byte.x7d]
         "/tmp/net/node1" (sample_config "{}") []).1 = Ok flags ->
      performed sample_lib "/tmp/net/node1/chainConfigs/C/config.json"
        [Byte.x7b; Byte.x7d] evs.
Proof.
  destruct (writeFiles_overrides sample_range sample_lib sample_constants 1337
              [Byte.x7b; Byte.x7d] "/tmp/net/node1" (sample_config "{}") []
              (fun g => reflexivity _)) as (evs & E & Hall).
  exists evs. split; [exact E|]. intros flags Hrun.
  apply (proj1 (Hall flags Hrun) "C" "{}"). reflexivity.
Defined.

(** Where the certificate file cannot be created, the error names its
    path and wraps the error of the call. *)
Lemma writeFiles_failure_witness :
  (writeFiles sample_range refusing_lib sample_constants 1337 [Byte.x7b; Byte.x7d]
     "/tmp/net/node1" (sample_config "{}") []).1 =
    Err (Wrapf "couldn't write file at %q: %w" [VString "/tmp/net/node1/staking.crt"]
           permission_denied) /\
  exists evs,
    (writeFiles sample_range refusing_lib sample_constants 1337 [Byte.x7b; Byte.x7d]
       "/tmp/net/node1" (sample_config "{}") []).2 = [] ++ evs /\
    failures evs <> [].
Proof.
  split; [vm_compute; reflexivity|].
  destruct (writeFiles_failure sample_range refusing_lib sample_constants 1337
              [Byte.x7b; Byte.x7d] "/tmp/net/node1" (sample_config "{}") []
              (Wrapf "couldn't write file at %q: %w"
                 [VString "/tmp/net/node1/staking.crt"] permission_denied))
    as (evs & E & Hshape).
  - vm_compute. reflexivity.
  - exists evs. split; [exact E|].
    destruct Hshape as [[Hdec _]|[(k & Hf & _)|(p & b & k & err & _ & _ & Hf & _)]].
    + discriminate Hdec.
    + rewrite Hf. discriminate.
    + rewrite Hf. discriminate.
Defined.
